(** * whisper_server: a shallow embedding of the local Whisper backend

    The development follows [whisper_server.py] function by function:
    Python strings and their methods, the module-level settings, the
    compute-type candidate list, model-name normalisation, the model cache
    with its fallback loop, the transcription runner and the HTTP handler.

    Python [str] values are modelled by [string]; a character is a code
    point below 256 (Latin-1), for which [str.strip] and [str.lower] are
    given exactly.  Exceptions are instances of [Exception]; the signals
    that derive from [BaseException] only (KeyboardInterrupt, SystemExit)
    are outside the model. *)

From Stdlib Require Import ZArith Ascii String List Bool Lia Floats DecimalString.
From stdpp Require Import base option gmap strings list fin_maps.

Import ListNotations.
Set Warnings "-register-all".
Local Open Scope string_scope.
Local Open Scope list_scope.

(** ** Python strings *)

Module PyStr.

(** [bool(s)]: a string is truthy when it is not empty. *)
Definition truthy (s : string) : bool :=
  match s with
  | EmptyString => false
  | String _ _ => true
  end.

(** [a or b] on strings. *)
Definition or_ (a b : string) : string := if truthy a then a else b.

(** [o or b] where [o] may be [None]. *)
Definition opt_or (o : option string) (b : string) : string :=
  match o with
  | Some a => or_ a b
  | None => b
  end.

(** [c.isspace()] for a code point below 256: TAB..CR, FS..US, space,
    NEL (0x85) and the no-break space (0xA0). *)
Definition isspace (c : ascii) : bool :=
  let n := N_of_ascii c in
  ((9 <=? n) && (n <=? 13) || (28 <=? n) && (n <=? 32)
   || (n =? 133) || (n =? 160))%N.

(** [c.lower()] for a code point below 256: A..Z and the accented
    capitals 0xC0..0xDE (the multiplication sign 0xD7 apart) move up by
    32. *)
Definition lower_char (c : ascii) : ascii :=
  let n := N_of_ascii c in
  if ((65 <=? n) && (n <=? 90)
      || (192 <=? n) && (n <=? 222) && negb (n =? 215))%N
  then ascii_of_N (n + 32)
  else c.

Fixpoint lower (s : string) : string :=
  match s with
  | EmptyString => EmptyString
  | String c s' => String (lower_char c) (lower s')
  end.

Fixpoint lstrip (s : string) : string :=
  match s with
  | EmptyString => EmptyString
  | String c s' => if isspace c then lstrip s' else s
  end.

Fixpoint rstrip (s : string) : string :=
  match s with
  | EmptyString => EmptyString
  | String c s' =>
      match rstrip s' with
      | EmptyString => if isspace c then EmptyString else String c EmptyString
      | r => String c r
      end
  end.

(** [s.strip()] *)
Definition strip (s : string) : string := rstrip (lstrip s).

Fixpoint startswith (p s : string) : bool :=
  match p, s with
  | EmptyString, _ => true
  | String a p', String b s' => Ascii.eqb a b && startswith p' s'
  | String _ _, EmptyString => false
  end.

(** [needle in hay] *)
Fixpoint contains (needle hay : string) : bool :=
  startswith needle hay ||
  match hay with
  | EmptyString => false
  | String _ hay' => contains needle hay'
  end.

(** [sep.join(parts)] *)
Fixpoint join (sep : string) (parts : list string) : string :=
  match parts with
  | [] => EmptyString
  | [p] => p
  | p :: rest => p +:+ sep +:+ join sep rest
  end.

(** [s[:n]] *)
Fixpoint take (n : nat) (s : string) : string :=
  match n, s with
  | O, _ => EmptyString
  | _, EmptyString => EmptyString
  | S n', String c s' => String c (take n' s')
  end.

(** [x in xs] for a list of strings, by [==]. *)
Definition list_contains (x : string) (xs : list string) : bool :=
  existsb (String.eqb x) xs.

End PyStr.

(** ** Module-level settings

    [DEFAULT_MODEL_NAME], [WHISPER_DEVICE], [WHISPER_COMPUTE_TYPE] and
    [WHISPER_BEAM_SIZE] are read from the environment once, at import.
    [os.getenv] returns whatever the variable holds, the empty string
    included.  [WHISPER_COMPUTE_TYPE] is an [option]: the code reads it as
    [WHISPER_COMPUTE_TYPE or "auto"], which also covers [None]. *)

Record settings := {
  DEFAULT_MODEL_NAME : string;
  WHISPER_DEVICE : string;
  WHISPER_COMPUTE_TYPE : option string;
  WHISPER_BEAM_SIZE : Z
}.

(** [MODEL_ALIASES] *)
Definition MODEL_ALIASES : gmap string string :=
  {[ "large-v3-turbo" := "large-v3" ]}.

(** ** The compute-type candidate list *)

(** The local closure [add] of [_compute_type_candidates], with the list it
    mutates passed explicitly. *)
Definition add (candidates : list string) (candidate : string) : list string :=
  if PyStr.truthy candidate && negb (PyStr.list_contains candidate candidates)
  then candidates ++ [candidate]
  else candidates.

Definition _compute_type_candidates (cfg : settings) : list string :=
  let configured :=
    PyStr.or_ (PyStr.strip (PyStr.opt_or (WHISPER_COMPUTE_TYPE cfg) "auto")) "auto" in
  let configured_lower := PyStr.lower configured in
  let candidates := [] in
  let candidates := add candidates configured in
  let candidates :=
    if String.eqb configured_lower "float16"
    then add (add candidates "int8_float32") "int8"
    else candidates in
  add candidates "auto".

(** ** Exceptions *)

(** The exception classes that occur in the server and its collaborators.
    [UnicodeDecodeError] derives from [ValueError], [FileNotFoundError] from
    [OSError] and [ModelNotAvailableError] (declared in the module) from
    [RuntimeError]. *)
Inductive exc_class :=
  | ValueError
  | UnicodeDecodeError
  | OSError
  | FileNotFoundError
  | RuntimeError
  | ModelNotAvailableError
  | MemoryError.

(** An exception object: an instance of one of the classes above with its
    message and its [__cause__], or a FastAPI [HTTPException]. *)
Inductive exn :=
  | PyExc (cls : exc_class) (msg : string) (cause : option exn)
  | HTTPException (status_code : Z) (detail : string).

Definition isinstance_ValueError (e : exn) : bool :=
  match e with
  | PyExc ValueError _ _ | PyExc UnicodeDecodeError _ _ => true
  | _ => false
  end.

Definition isinstance_OSError (e : exn) : bool :=
  match e with
  | PyExc OSError _ _ | PyExc FileNotFoundError _ _ => true
  | _ => false
  end.

Definition isinstance_ModelNotAvailableError (e : exn) : bool :=
  match e with
  | PyExc ModelNotAvailableError _ _ => true
  | _ => false
  end.

(** [str(e)] *)
Definition str_exc (e : exn) : string :=
  match e with
  | PyExc _ msg _ => msg
  | HTTPException status_code detail =>
      DecimalString.NilZero.string_of_int (Z.to_int status_code) +:+ ": " +:+ detail
  end.

(** The result of running a piece of Python code: a value, or a raised
    exception. *)
Inductive outcome (A : Type) :=
  | Return (a : A)
  | Raise (e : exn).
Arguments Return {A} a.
Arguments Raise {A} e.

(** ** What the inference library yields *)

(** A segment object of the inference library, with the attributes the
    server reads. *)
Record Segment := {
  seg_start : float;
  seg_end : float;
  seg_text : option string;
  seg_tokens : list Z;
  seg_avg_logprob : float;
  seg_compression_ratio : float;
  seg_no_speech_prob : float
}.

(** The lazily produced sequence of segments, unfolded: the segments it
    yields, then exhaustion ([None]) or the exception raised while
    producing the next one. *)
Definition generator : Type := list Segment * option exn.

(** The dictionary [run_transcription] builds for each segment. *)
Record segment_dict := {
  sd_id : nat;
  sd_seek : Z;
  sd_start : float;
  sd_end : float;
  sd_text : option string;
  sd_tokens : list Z;
  sd_temperature : float;
  sd_avg_logprob : float;
  sd_compression_ratio : float;
  sd_no_speech_prob : float
}.

(** [response_payload] *)
Record response_payload := {
  rp_id : string;
  rp_object : string;
  rp_created : Z;
  rp_model : string;
  rp_text : string;
  rp_segments : list segment_dict
}.

(** The upload and the request as the handler reads them. *)
Record UploadFile := {
  filename : option string;
  read : outcome (list Byte.byte)
}.

Record Request := {
  file : UploadFile;
  model : option string;
  query_params_model : option string
}.

(** ** External collaborators

    The inference library, the file system, the clock and the identifier
    source.  Each call reads and updates the collaborators' own state
    [Ext].  [tmp_file_write] stands for the body and the exit of the
    [with tempfile.NamedTemporaryFile(...)] block: writing the bytes and
    closing the file.  [unlink] is [os.unlink], which fails with an
    [OSError] only: [Some msg] is [OSError(msg)] raised. *)
Class Runtime := {
  Model : Type;
  Ext : Type;
  WhisperModel : string -> string -> string -> Ext -> outcome Model * Ext;
  transcribe : Model -> string -> Z -> bool -> Ext -> outcome generator * Ext;
  NamedTemporaryFile : string -> Ext -> outcome string * Ext;
  tmp_file_write : string -> list Byte.byte -> Ext -> outcome unit * Ext;
  unlink : string -> Ext -> option string * Ext;
  uuid4_hex : Ext -> string * Ext;
  time_time : Ext -> Z * Ext;
  Path_suffix : string -> string
}.

(** Records written through [logger]. *)
Inductive log_record :=
  | InfoAliasApplied (normalized alias : string)
  | InfoLoading (name device compute_type : string)
  | WarnLoadFailed (name compute_type : string) (exc : exn)
  | ErrReadFailed (exc : exn)
  | InfoReceived (file_name : string) (size : nat) (selected_model : string)
  | InfoCompleted (file_name selected_model preview : string)
  | ErrModelNotAvailable (exc : exn)
  | ErrTranscriptionFailed (exc : exn)
  | WarnUnlinkFailed (temp_path : string).

(** ** Program state and the monad the server runs in *)

Section Server.

Context {RT : Runtime}.
Variable cfg : settings.

(** A call made to a collaborator. *)
Inductive call :=
  | CallWhisperModel (name device compute_type : string)
  | CallTranscribe (m : Model) (audio_path : string) (beam_size : Z)
      (vad_filter : bool)
  | CallNamedTemporaryFile (suffix : string)
  | CallWrite (temp_path : string) (file_bytes : list Byte.byte)
  | CallUnlink (temp_path : string)
  | CallUuid4
  | CallTime.

(** The process state: the module-level dictionary [_MODEL_CACHE], the
    log, the calls made to the collaborators so far (oldest first) and
    the collaborators' state. *)
Record world := {
  _MODEL_CACHE : gmap string Model;
  log : list log_record;
  trace : list call;
  ext : Ext
}.

Definition M (A : Type) : Type := world -> outcome A * world.

Definition ret {A} (a : A) : M A := fun w => (Return a, w).

Definition raise {A} (e : exn) : M A := fun w => (Raise e, w).

Definition bind {A B} (m : M A) (k : A -> M B) : M B :=
  fun w =>
    match m w with
    | (Return a, w') => k a w'
    | (Raise e, w') => (Raise e, w')
    end.

(** [try: body / except ...: handler]: [handler exc] is [None] when no
    [except] clause matches [exc]. *)
Definition try_except {A} (body : M A) (handler : exn -> option (M A)) : M A :=
  fun w =>
    match body w with
    | (Return a, w') => (Return a, w')
    | (Raise e, w') =>
        match handler e with
        | Some h => h w'
        | None => (Raise e, w')
        end
    end.

(** [try: body / finally: cleanup]: the cleanup runs on every exit of the
    body; an exception it raises itself replaces the body's outcome. *)
Definition try_finally {A} (body : M A) (cleanup : M unit) : M A :=
  fun w =>
    let (o, w') := body w in
    match cleanup w' with
    | (Return _, w'') => (o, w'')
    | (Raise e, w'') => (Raise e, w'')
    end.

Definition logger (r : log_record) : M unit :=
  fun w =>
    (Return tt,
     {| _MODEL_CACHE := _MODEL_CACHE w; log := log w ++ [r];
        trace := trace w; ext := ext w |}).

(** A call to a collaborator, recorded in the trace. *)
Definition external {A} (c : call) (f : Ext -> outcome A * Ext) : M A :=
  fun w =>
    let (o, x) := f (ext w) in
    (o,
     {| _MODEL_CACHE := _MODEL_CACHE w; log := log w;
        trace := trace w ++ [c]; ext := x |}).

(** [_MODEL_CACHE[key] = m] *)
Definition cache_store (key : string) (m : Model) : M unit :=
  fun w =>
    (Return tt,
     {| _MODEL_CACHE := <[key := m]> (_MODEL_CACHE w); log := log w;
        trace := trace w; ext := ext w |}).

(** [_MODEL_CACHE.get(key)], for [key in _MODEL_CACHE] and
    [_MODEL_CACHE[key]]. *)
Definition cache_lookup (key : string) : M (option Model) :=
  fun w => (Return (_MODEL_CACHE w !! key), w).

Notation "x <- m ;; k" := (bind m (fun x => k))
  (at level 100, m at next level, right associativity).
Notation "m ;;; k" := (bind m (fun _ => k))
  (at level 100, right associativity).

(** ** [normalize_model_name] *)

Definition normalize_model_name (requested_name : option string) : M string :=
  let normalized := PyStr.strip (PyStr.opt_or requested_name "") in
  let normalized := PyStr.or_ normalized (DEFAULT_MODEL_NAME cfg) in
  match MODEL_ALIASES !! PyStr.lower normalized with
  | Some alias =>
      if PyStr.truthy alias
      then logger (InfoAliasApplied normalized alias) ;;; ret alias
      else ret normalized
  | None => ret normalized
  end.

(** ** [get_model] *)

(** The [for compute_type in ...] loop of [get_model].  [inl model] is the
    [return model] inside the loop; [inr last_error] is the loop running
    to its end. *)
Fixpoint load_candidates (normalized_name : string) (candidates : list string)
    (last_error : option exn) : M (Model + option exn) :=
  match candidates with
  | [] => ret (inr last_error)
  | compute_type :: rest =>
      try_except
        (logger (InfoLoading normalized_name (WHISPER_DEVICE cfg) compute_type) ;;;
         model <- external
                    (CallWhisperModel normalized_name (WHISPER_DEVICE cfg) compute_type)
                    (WhisperModel normalized_name (WHISPER_DEVICE cfg) compute_type) ;;
         cache_store normalized_name model ;;;
         ret (inl model))
        (fun exc =>
           if isinstance_ValueError exc
           then Some
                  (logger (WarnLoadFailed normalized_name compute_type exc) ;;;
                   load_candidates normalized_name rest (Some exc))
           else None)
  end.

(** The phrases that classify a load failure as a missing model. *)
Definition missing_phrases : list string :=
  ["not found"; "no such file"; "could not be found"].

(** The local [missing] of [get_model]: whether the lowercased text of
    the last error holds one of the phrases. *)
Definition missing (last_error : exn) : bool :=
  let error_text := PyStr.lower (str_exc last_error) in
  existsb (fun phrase => PyStr.contains phrase error_text) missing_phrases.

(** An exception object is truthy: neither [BaseException] nor the
    classes above define [__bool__] or [__len__]; so [if last_error:]
    tests [last_error is not None].  The lock [_MODEL_LOCK] is held for
    the whole body; calls are modelled one at a time. *)
Definition get_model (model_name : string) : M Model :=
  normalized_name <- normalize_model_name (Some model_name) ;;
  cached <- cache_lookup normalized_name ;;
  match cached with
  | Some m => ret m
  | None =>
      r <- load_candidates normalized_name (_compute_type_candidates cfg) None ;;
      match r with
      | inl model => ret model
      | inr last_error =>
          let message :=
            "Unable to load Whisper model '" +:+ normalized_name
            +:+ "' with any compute type." in
          match last_error with
          | Some e =>
              if missing e
              then raise (PyExc ModelNotAvailableError
                            (message +:+ " Model files are not available locally.")
                            (Some e))
              else raise e
          | None => raise (PyExc RuntimeError message None)
          end
      end
  end.

(** ** [run_transcription] *)

Definition segment_entry (index : nat) (segment : Segment) : segment_dict :=
  {| sd_id := index;
     sd_seek := 0;
     sd_start := seg_start segment;
     sd_end := seg_end segment;
     sd_text := seg_text segment;
     sd_tokens := seg_tokens segment;
     sd_temperature := 0%float;
     sd_avg_logprob := seg_avg_logprob segment;
     sd_compression_ratio := seg_compression_ratio segment;
     sd_no_speech_prob := seg_no_speech_prob segment |}.

(** The [for index, segment in enumerate(segments_generator)] loop, with
    the two lists it appends to. *)
Fixpoint collect (index : nat) (yielded : list Segment)
    (segments : list segment_dict) (collected_text : list string)
    : list segment_dict * list string :=
  match yielded with
  | [] => (segments, collected_text)
  | segment :: rest =>
      let text := PyStr.strip (PyStr.opt_or (seg_text segment) "") in
      let collected_text :=
        if PyStr.truthy text then collected_text ++ [text] else collected_text in
      let segments := segments ++ [segment_entry index segment] in
      collect (S index) rest segments collected_text
  end.

Definition run_transcription (audio_path model_name : string)
    : M (string * list segment_dict) :=
  model <- get_model model_name ;;
  gen <- external
           (CallTranscribe model audio_path (WHISPER_BEAM_SIZE cfg) true)
           (transcribe model audio_path (WHISPER_BEAM_SIZE cfg) true) ;;
  let '(yielded, failure) := gen in
  let '(segments, collected_text) := collect 0 yielded [] [] in
  match failure with
  | Some e => raise e
  | None => ret (PyStr.strip (PyStr.join " " collected_text), segments)
  end.

(** ** [create_transcription], the handler of POST /v1/audio/transcriptions *)

(** [model or request.query_params.get("model")] *)
Definition form_or_query (form_value query_value : option string) : option string :=
  match form_value with
  | Some s => if PyStr.truthy s then Some s else query_value
  | None => query_value
  end.

(** The handler up to its [try] statement: the checks on the upload, the
    temporary file and the selected model.  It returns the file name, the
    path of the temporary file and the selected model. *)
Definition receive_upload (request : Request) : M (string * string * string) :=
  match filename (file request) with
  | None => raise (HTTPException 400 "Uploaded file must include a filename.")
  | Some file_name =>
      if negb (PyStr.truthy file_name)
      then raise (HTTPException 400 "Uploaded file must include a filename.")
      else
        file_bytes <-
          try_except
            (fun w => (read (file request), w))
            (fun exc =>
               Some (logger (ErrReadFailed exc) ;;;
                     raise (HTTPException 400 "Unable to read uploaded file."))) ;;
        match file_bytes with
        | [] => raise (HTTPException 400 "Uploaded file is empty.")
        | _ :: _ =>
            let suffix := PyStr.or_ (Path_suffix file_name) ".mp3" in
            temp_path <- external (CallNamedTemporaryFile suffix)
                           (NamedTemporaryFile suffix) ;;
            external (CallWrite temp_path file_bytes)
              (tmp_file_write temp_path file_bytes) ;;;
            selected_model <-
              normalize_model_name
                (form_or_query (model request) (query_params_model request)) ;;
            logger (InfoReceived file_name (length file_bytes) selected_model) ;;;
            ret (file_name, temp_path, selected_model)
        end
  end.

(** The [try] block with its two [except] clauses.  The two readings of
    [time.monotonic()] only feed the log and are left out. *)
Definition transcribe_or_fail (file_name temp_path selected_model : string)
    : M (string * list segment_dict) :=
  try_except
    (r <- run_transcription temp_path selected_model ;;
     let preview := PyStr.take 200 (PyStr.or_ (fst r) "") in
     logger (InfoCompleted file_name selected_model preview) ;;;
     ret r)
    (fun exc =>
       if isinstance_ModelNotAvailableError exc
       then Some
              (logger (ErrModelNotAvailable exc) ;;;
               raise (HTTPException 503
                        ("Model '" +:+ selected_model
                         +:+ "' is not available locally. Download it before retrying.")))
       else Some
              (logger (ErrTranscriptionFailed exc) ;;;
               raise (HTTPException 500 "Whisper transcription failed."))).

(** The [finally] clause: [temp_path.unlink()], where an [OSError] is
    logged and dropped. *)
Definition remove_temp_file (temp_path : string) : M unit :=
  try_except
    (external (CallUnlink temp_path)
       (fun x =>
          let (failure, x') := unlink temp_path x in
          (match failure with
           | None => Return tt
           | Some msg => Raise (PyExc OSError msg None)
           end, x')))
    (fun exc =>
       if isinstance_OSError exc
       then Some (logger (WarnUnlinkFailed temp_path))
       else None).

(** An outcome of the handler is the HTTP response: [Return payload] is
    200 with the payload as JSON, [Raise (HTTPException s d)] is status
    [s] with [{"detail": d}], and any other raised exception leaves the
    handler unhandled. *)
Definition create_transcription (request : Request) : M response_payload :=
  upload <- receive_upload request ;;
  let '(file_name, temp_path, selected_model) := upload in
  r <- try_finally
         (transcribe_or_fail file_name temp_path selected_model)
         (remove_temp_file temp_path) ;;
  hex <- external CallUuid4
           (fun x => let (h, x') := uuid4_hex x in (Return h, x')) ;;
  created <- external CallTime
               (fun x => let (t, x') := time_time x in (Return t, x')) ;;
  ret {| rp_id := "transcription-" +:+ hex;
         rp_object := "transcription";
         rp_created := created;
         rp_model := selected_model;
         rp_text := fst r;
         rp_segments := snd r |}.

(** [get_model] called for each name of a list in turn, whatever each call
    returns or raises. *)
Fixpoint get_models (names : list string) (w : world) : world :=
  match names with
  | [] => w
  | n :: rest => get_models rest (snd (get_model n w))
  end.

End Server.

Arguments world {RT}.
Arguments M {RT} A.
Arguments call {RT}.

(** ** The specification's wording, to compare the code with *)

Module Spec.

(** Keep the first occurrence of every string, in order. *)
Fixpoint dedup_first (seen xs : list string) : list string :=
  match xs with
  | [] => []
  | x :: rest =>
      if PyStr.list_contains x seen
      then dedup_first seen rest
      else x :: dedup_first (x :: seen) rest
  end.

(** The configured compute type, trimmed; the sentinel when it is unset or
    blank. *)
Definition configured_or_auto (configured : option string) : string :=
  match configured with
  | None => "auto"
  | Some s =>
      match PyStr.strip s with
      | EmptyString => "auto"
      | trimmed => trimmed
      end
  end.

(** The candidate list as the specification builds it. *)
Definition candidates (configured : option string) : list string :=
  let first := configured_or_auto configured in
  dedup_first []
    ([first]
     ++ (if String.eqb (PyStr.lower first) "float16"
         then ["int8_float32"; "int8"] else [])
     ++ ["auto"]).

(** The alias-resolved form of a name. *)
Definition alias_resolved (name : string) : string :=
  match MODEL_ALIASES !! PyStr.lower name with
  | Some target => target
  | None => name
  end.

(** The normaliser: the request trimmed, the default when it is absent or
    empty, then the alias table. *)
Definition normalize (default : string) (requested : option string) : string :=
  let trimmed :=
    match requested with
    | Some s => PyStr.strip s
    | None => ""
    end in
  alias_resolved
    (match trimmed with
     | EmptyString => default
     | _ => trimmed
     end).

(** The trimmed text of a segment. *)
Definition trimmed_text (segment : Segment) : string :=
  match seg_text segment with
  | Some t => PyStr.strip t
  | None => ""
  end.

(** The space-joined trimmed texts of the segments whose trimmed text is
    not empty, trimmed again as a whole. *)
Definition full_text (yielded : list Segment) : string :=
  PyStr.strip
    (PyStr.join " "
       (List.filter PyStr.truthy (List.map trimmed_text yielded))).

End Spec.

(** ** A scripted runtime

    The collaborators as the test suite fakes them: a model handle records
    the name, device and compute type it was built with (the [FakeModel] of
    the tests), and what each call answers is fixed by a script. *)

Module Scripted.

Definition FakeModel : Type := string * string * string.

Record script := {
  on_load : string -> string -> string -> outcome FakeModel;
  on_transcribe : outcome generator;
  on_mktemp : outcome string;
  on_write : outcome unit;
  on_unlink : option string
}.

(** [Path(name).suffix] for a POSIX path, as pathlib computes it: the
    path is split at "/", empty and "." components are dropped, and the
    suffix of the last component is the text from its last dot on, when
    that dot is neither its first nor its last character. *)
Fixpoint components (s : string) : list string :=
  match s with
  | EmptyString => [EmptyString]
  | String c s' =>
      if Ascii.eqb c "/"%char
      then EmptyString :: components s'
      else match components s' with
           | part :: parts => String c part :: parts
           | [] => [String c EmptyString]
           end
  end.

Definition is_part (part : string) : bool :=
  negb (String.eqb part "" || String.eqb part ".").

Definition final_component (name : string) : string :=
  List.last (List.filter is_part (components name)) "".

Fixpoint from_last_dot (s : string) : option string :=
  match s with
  | EmptyString => None
  | String c s' =>
      match from_last_dot s' with
      | Some r => Some r
      | None => if Ascii.eqb c "."%char then Some s else None
      end
  end.

Definition suffix (name : string) : string :=
  match final_component name with
  | EmptyString => ""
  | String _ rest =>
      match from_last_dot rest with
      | Some (String _ (String _ _) as r) => r
      | _ => ""
      end
  end.

(** The collaborators that follow a script; they keep no state of their
    own. *)
Definition runtime (s : script) : Runtime := {|
  Model := FakeModel;
  Ext := unit;
  WhisperModel := fun name device compute_type x =>
    (on_load s name device compute_type, x);
  transcribe := fun _ _ _ _ x => (on_transcribe s, x);
  NamedTemporaryFile := fun _ x => (on_mktemp s, x);
  tmp_file_write := fun _ _ x => (on_write s, x);
  unlink := fun _ x => (on_unlink s, x);
  uuid4_hex := fun x => ("0123456789abcdef0123456789abcdef", x);
  time_time := fun x => (1700000000%Z, x);
  Path_suffix := suffix
|}.

(** A constructor that always succeeds. *)
Definition load_ok (name device compute_type : string) : outcome FakeModel :=
  Return (name, device, compute_type).

(** The constructor of [test_get_model_falls_back_when_float16_not_supported]. *)
Definition load_no_float16 (name device compute_type : string) : outcome FakeModel :=
  if String.eqb compute_type "float16"
  then Raise (PyExc ValueError "float16 unsupported" None)
  else Return (name, device, compute_type).

(** A constructor that rejects every compute type with the same error. *)
Definition load_rejects (msg : string) (name device compute_type : string)
    : outcome FakeModel :=
  Raise (PyExc ValueError msg None).

(** A constructor that rejects the reduced precisions and then cannot
    open the model file. *)
Definition load_file_missing (name device compute_type : string) : outcome FakeModel :=
  if String.eqb compute_type "auto"
  then Raise (PyExc RuntimeError "Unable to open file 'model.bin': file not found" None)
  else Raise (PyExc ValueError "unsupported compute type" None).

Definition a_segment (text : option string) : Segment :=
  {| seg_start := 0%float; seg_end := 1%float; seg_text := text;
     seg_tokens := [0%Z]; seg_avg_logprob := 0%float;
     seg_compression_ratio := 0%float; seg_no_speech_prob := 0%float |}.

Definition a_script (load : string -> string -> string -> outcome FakeModel) : script :=
  {| on_load := load;
     on_transcribe :=
       Return ([a_segment (Some " Hello "); a_segment None;
                a_segment (Some "   "); a_segment (Some "world.")], None);
     on_mktemp := Return "/tmp/tmpk3x9.mp3";
     on_write := Return tt;
     on_unlink := None |}.

(** The same script on a disk that is full: the temporary file is
    created, writing to it fails. *)
Definition on_full_disk (s : script) : script :=
  {| on_load := on_load s;
     on_transcribe := on_transcribe s;
     on_mktemp := on_mktemp s;
     on_write := Raise (PyExc OSError "[Errno 28] No space left on device" None);
     on_unlink := on_unlink s |}.

(** The process right after import: nothing cached, logged or called. *)
Definition start (s : script) : @world (runtime s) :=
  @Build_world (runtime s) ∅ [] [] tt.

Definition a_config (default compute_type : string) : settings :=
  {| DEFAULT_MODEL_NAME := default;
     WHISPER_DEVICE := "auto";
     WHISPER_COMPUTE_TYPE := Some compute_type;
     WHISPER_BEAM_SIZE := 5 |}.

Definition a_request : Request :=
  {| file := {| filename := Some "speech.mp3";
                read := Return [Byte.x49; Byte.x44; Byte.x33] |};
     model := Some "base";
     query_params_model := None |}.

(** The same script with a generator that yields one segment and then
    fails. *)
Definition on_broken_generator (s : script) (e : exn) : script :=
  {| on_load := on_load s;
     on_transcribe := Return ([a_segment (Some "Hello")], Some e);
     on_mktemp := on_mktemp s;
     on_write := on_write s;
     on_unlink := on_unlink s |}.

(** The same script where the temporary file cannot be removed. *)
Definition on_unlink_failure (s : script) : script :=
  {| on_load := on_load s;
     on_transcribe := on_transcribe s;
     on_mktemp := on_mktemp s;
     on_write := on_write s;
     on_unlink := Some "[Errno 13] Permission denied" |}.

(** The same script without a usable temporary directory. *)
Definition on_no_tempdir (s : script) : script :=
  {| on_load := on_load s;
     on_transcribe := on_transcribe s;
     on_mktemp :=
       Raise (PyExc FileNotFoundError
                "[Errno 2] No usable temporary directory found" None);
     on_write := on_write s;
     on_unlink := on_unlink s |}.

(** Uploads that the handler turns down. *)
Definition a_request_without_filename : Request :=
  {| file := {| filename := Some ""; read := Return [Byte.x49] |};
     model := None;
     query_params_model := None |}.

Definition an_unreadable_request : Request :=
  {| file := {| filename := Some "speech.wav";
                read := Raise (PyExc RuntimeError "client disconnected" None) |};
     model := None;
     query_params_model := Some "base" |}.

Definition an_empty_request : Request :=
  {| file := {| filename := Some "speech.wav"; read := Return [] |};
     model := Some "base";
     query_params_model := None |}.

End Scripted.

(** ** Notions used in the statements *)

(** Two states that differ at most in the log. *)
Definition same_but_log `{RT : Runtime} (w w' : world) : Prop :=
  _MODEL_CACHE w' = _MODEL_CACHE w /\ trace w' = trace w /\ ext w' = ext w.

(** [name] is a fixed point of [normalize_model_name]. *)
Definition normalize_fixed `{RT : Runtime} (cfg : settings) (name : string) : Prop :=
  forall w, fst (normalize_model_name cfg (Some name) w) = Return name.

(** * Facts about strings *)

Section StringFacts.

Import PyStr.

Lemma truthy_true (s : string) : truthy s = true <-> s <> "".
Proof. destruct s; simpl; split; intros H; congruence. Qed.

Lemma truthy_false (s : string) : truthy s = false <-> s = "".
Proof. destruct s; simpl; split; intros H; congruence. Qed.

Lemma or_nonempty (a b : string) : b <> "" -> or_ a b <> "".
Proof.
  intros Hb. unfold or_. destruct (truthy a) eqn:Ha; [|exact Hb].
  now apply truthy_true.
Qed.

Lemma lstrip_head (s : string) :
  lstrip s = "" \/ exists c t, lstrip s = String c t /\ isspace c = false.
Proof.
  induction s as [|c s IH]; simpl; [now left|].
  destruct (isspace c) eqn:Hc; [exact IH|].
  right. now exists c, s.
Qed.

Lemma rstrip_keeps_head (c : ascii) (t : string) :
  isspace c = false -> rstrip (String c t) = String c (rstrip t).
Proof. intros Hc. simpl. rewrite Hc. now destruct (rstrip t). Qed.

Lemma rstrip_idem (s : string) : rstrip (rstrip s) = rstrip s.
Proof.
  induction s as [|c s IH]; simpl; [reflexivity|].
  destruct (rstrip s) as [|d r] eqn:Hr.
  - destruct (isspace c) eqn:Hc; simpl; [reflexivity|now rewrite Hc].
  - change (rstrip (String c (String d r)) = String c (String d r)).
    simpl. simpl in IH.
    destruct (rstrip r) as [|e r'] eqn:Hr'.
    + destruct (isspace d) eqn:Hd; [discriminate|].
      now inversion IH.
    + now inversion IH.
Qed.

Lemma strip_head (s : string) :
  strip s = "" \/ exists c t, strip s = String c t /\ isspace c = false.
Proof.
  unfold strip. destruct (lstrip_head s) as [->|(c & t & -> & Hc)].
  - now left.
  - right. rewrite (rstrip_keeps_head _ _ Hc). now exists c, (rstrip t).
Qed.

Lemma strip_idem (s : string) : strip (strip s) = strip s.
Proof.
  destruct (strip_head s) as [->|(c & t & E & Hc)]; [reflexivity|].
  unfold strip at 1. rewrite E. simpl lstrip. rewrite Hc.
  rewrite <- E. unfold strip. apply rstrip_idem.
Qed.

Lemma strip_empty : strip "" = "".
Proof. reflexivity. Qed.

Lemma list_contains_nil (x : string) : list_contains x [] = false.
Proof. reflexivity. Qed.

Lemma list_contains_cons (x y : string) (l : list string) :
  list_contains x (y :: l) = String.eqb x y || list_contains x l.
Proof. reflexivity. Qed.

End StringFacts.

(** * The alias table *)

Lemma alias_lookup (key : string) :
  MODEL_ALIASES !! key
  = if String.eqb key "large-v3-turbo" then Some "large-v3" else None.
Proof.
  unfold MODEL_ALIASES. destruct (String.eqb_spec key "large-v3-turbo") as [->|Hne].
  - apply lookup_singleton_eq.
  - apply lookup_singleton_ne. congruence.
Qed.

Lemma alias_resolved_cases (name : string) :
  Spec.alias_resolved name
  = if String.eqb (PyStr.lower name) "large-v3-turbo" then "large-v3" else name.
Proof.
  unfold Spec.alias_resolved. rewrite alias_lookup.
  now destruct (String.eqb _ _).
Qed.

(** * The candidate list *)

Lemma configured_is_spec (configured : option string) :
  PyStr.or_ (PyStr.strip (PyStr.opt_or configured "auto")) "auto"
  = Spec.configured_or_auto configured.
Proof.
  destruct configured as [s|]; [|reflexivity].
  unfold Spec.configured_or_auto, PyStr.opt_or, PyStr.or_ at 2.
  destruct s as [|c s]; [reflexivity|]. simpl PyStr.truthy. cbv iota.
  unfold PyStr.or_. now destruct (PyStr.strip (String c s)).
Qed.

Lemma configured_or_auto_truthy (configured : option string) :
  PyStr.truthy (Spec.configured_or_auto configured) = true.
Proof.
  destruct configured as [s|]; [|reflexivity].
  unfold Spec.configured_or_auto. now destruct (PyStr.strip s).
Qed.

Lemma add_fresh (l : list string) (x : string) :
  PyStr.truthy x = true -> PyStr.list_contains x l = false -> add l x = l ++ [x].
Proof. intros Ht Hl. unfold add. now rewrite Ht, Hl. Qed.

Lemma add_seen (l : list string) (x : string) :
  PyStr.list_contains x l = true -> add l x = l.
Proof. intros Hl. unfold add. rewrite Hl. now rewrite andb_false_r. Qed.

Lemma candidates_cases (cfg : settings) :
  let first := Spec.configured_or_auto (WHISPER_COMPUTE_TYPE cfg) in
  _compute_type_candidates cfg
  = if String.eqb (PyStr.lower first) "float16"
    then [first; "int8_float32"; "int8"; "auto"]
    else if String.eqb first "auto" then [first] else [first; "auto"].
Proof.
  intros first. unfold _compute_type_candidates.
  rewrite configured_is_spec. fold first.
  pose proof (configured_or_auto_truthy (WHISPER_COMPUTE_TYPE cfg)) as Ht.
  fold first in Ht.
  rewrite (add_fresh [] first Ht (list_contains_nil first)). simpl app.
  destruct (String.eqb_spec (PyStr.lower first) "float16") as [Hl|Hl].
  - assert (H1 : String.eqb "int8_float32" first = false).
    { apply String.eqb_neq. intros E. rewrite <- E in Hl. discriminate Hl. }
    assert (H2 : String.eqb "int8" first = false).
    { apply String.eqb_neq. intros E. rewrite <- E in Hl. discriminate Hl. }
    assert (H3 : String.eqb "auto" first = false).
    { apply String.eqb_neq. intros E. rewrite <- E in Hl. discriminate Hl. }
    rewrite (add_fresh [first] "int8_float32"); [simpl app|reflexivity|].
    2:{ rewrite list_contains_cons, H1. reflexivity. }
    rewrite (add_fresh _ "int8"); [simpl app|reflexivity|].
    2:{ rewrite list_contains_cons, H2. reflexivity. }
    rewrite (add_fresh _ "auto"); [reflexivity|reflexivity|].
    rewrite list_contains_cons, H3. reflexivity.
  - destruct (String.eqb_spec first "auto") as [E|E].
    + apply add_seen. rewrite E. reflexivity.
    + rewrite add_fresh; [reflexivity|reflexivity|].
      rewrite list_contains_cons, list_contains_nil, orb_false_r.
      apply String.eqb_neq. congruence.
Qed.

Lemma spec_candidates_cases (configured : option string) :
  let first := Spec.configured_or_auto configured in
  Spec.candidates configured
  = if String.eqb (PyStr.lower first) "float16"
    then [first; "int8_float32"; "int8"; "auto"]
    else if String.eqb first "auto" then [first] else [first; "auto"].
Proof.
  intros first. unfold Spec.candidates. fold first.
  destruct (String.eqb_spec (PyStr.lower first) "float16") as [Hl|Hl].
  - assert (H1 : String.eqb "int8_float32" first = false).
    { apply String.eqb_neq. intros E. rewrite <- E in Hl. discriminate Hl. }
    assert (H2 : String.eqb "int8" first = false).
    { apply String.eqb_neq. intros E. rewrite <- E in Hl. discriminate Hl. }
    assert (H3 : String.eqb "auto" first = false).
    { apply String.eqb_neq. intros E. rewrite <- E in Hl. discriminate Hl. }
    cbn [app Spec.dedup_first]. unfold PyStr.list_contains. cbn [existsb].
    rewrite H1, H2, H3. reflexivity.
  - cbn [app Spec.dedup_first]. rewrite list_contains_nil.
    rewrite list_contains_cons, list_contains_nil, orb_false_r.
    rewrite String.eqb_sym. now destruct (String.eqb first "auto").
Qed.

Lemma candidates_refine_spec (cfg : settings) :
  _compute_type_candidates cfg = Spec.candidates (WHISPER_COMPUTE_TYPE cfg).
Proof.
  pose proof (candidates_cases cfg) as Hc.
  pose proof (spec_candidates_cases (WHISPER_COMPUTE_TYPE cfg)) as Hs.
  simpl in Hc, Hs. now rewrite Hc, Hs.
Qed.

(** * The server *)

Section ServerFacts.

Context {RT : Runtime}.
Variable cfg : settings.

Local Abbreviation dev := (WHISPER_DEVICE cfg).

Ltac run := unfold bind, ret, raise, logger, external, try_except,
              cache_store, cache_lookup.

Lemma same_but_log_refl (w : world) : same_but_log w w.
Proof. now repeat split. Qed.

(** ** [normalize_model_name] *)

Lemma normalize_run (requested_name : option string) (w : world) :
  exists w',
    normalize_model_name cfg requested_name w
    = (Return (Spec.normalize (DEFAULT_MODEL_NAME cfg) requested_name), w')
    /\ same_but_log w w'.
Proof.
  unfold normalize_model_name, Spec.normalize, Spec.alias_resolved.
  set (t := match requested_name with Some s => PyStr.strip s | None => "" end).
  assert (E : PyStr.or_ (PyStr.strip (PyStr.opt_or requested_name ""))
                (DEFAULT_MODEL_NAME cfg)
              = match t with "" => DEFAULT_MODEL_NAME cfg | _ => t end).
  { subst t. destruct requested_name as [[|c s]|]; try reflexivity.
    unfold PyStr.opt_or, PyStr.or_ at 2. simpl PyStr.truthy. cbv iota.
    unfold PyStr.or_. now destruct (PyStr.strip (String c s)). }
  rewrite E. generalize (match t with "" => DEFAULT_MODEL_NAME cfg | _ => t end).
  intros name. rewrite alias_lookup.
  destruct (String.eqb _ "large-v3-turbo").
  - simpl PyStr.truthy. cbv iota. run. eexists. split; [reflexivity|].
    now repeat split.
  - run. eexists. split; [reflexivity|apply same_but_log_refl].
Qed.

Lemma normalize_value (requested_name : option string) (w : world) :
  fst (normalize_model_name cfg requested_name w)
  = Return (Spec.normalize (DEFAULT_MODEL_NAME cfg) requested_name).
Proof.
  destruct (normalize_run requested_name w) as (w' & E & _). now rewrite E.
Qed.

Lemma spec_normalize_blank (requested_name : string) :
  PyStr.strip requested_name = "" ->
  Spec.normalize (DEFAULT_MODEL_NAME cfg) (Some requested_name)
  = Spec.alias_resolved (DEFAULT_MODEL_NAME cfg).
Proof. intros E. unfold Spec.normalize. now rewrite E. Qed.

Lemma spec_normalize_given (requested_name : string) :
  PyStr.strip requested_name <> "" ->
  Spec.normalize (DEFAULT_MODEL_NAME cfg) (Some requested_name)
  = Spec.alias_resolved (PyStr.strip requested_name).
Proof.
  intros E. unfold Spec.normalize.
  now destruct (PyStr.strip requested_name).
Qed.

Lemma alias_resolved_nonempty (name : string) :
  name <> "" -> Spec.alias_resolved name <> "".
Proof.
  intros Hn. rewrite alias_resolved_cases.
  now destruct (String.eqb _ _).
Qed.

(** An alias-resolved name that was already trimmed is left alone by the
    normaliser. *)
Lemma spec_normalize_resolved (name : string) :
  PyStr.strip name = name -> name <> "" ->
  Spec.normalize (DEFAULT_MODEL_NAME cfg) (Some (Spec.alias_resolved name))
  = Spec.alias_resolved name.
Proof.
  intros Hs Hn. rewrite alias_resolved_cases.
  destruct (String.eqb (PyStr.lower name) "large-v3-turbo") eqn:El.
  - reflexivity.
  - rewrite spec_normalize_given; rewrite Hs; [|exact Hn].
    rewrite alias_resolved_cases. now rewrite El.
Qed.

(** ** The fallback loop *)

Lemma load_candidates_step (n ct : string) (rest : list string)
    (last_error : option exn) (w : world) :
  load_candidates cfg n (ct :: rest) last_error w
  = match WhisperModel n dev ct (ext w) with
    | (Return m, x) =>
        (Return (inl m),
         {| _MODEL_CACHE := <[n := m]> (_MODEL_CACHE w);
            log := log w ++ [InfoLoading n dev ct];
            trace := trace w ++ [CallWhisperModel n dev ct];
            ext := x |})
    | (Raise e, x) =>
        if isinstance_ValueError e
        then load_candidates cfg n rest (Some e)
               {| _MODEL_CACHE := _MODEL_CACHE w;
                  log := (log w ++ [InfoLoading n dev ct])
                         ++ [WarnLoadFailed n ct e];
                  trace := trace w ++ [CallWhisperModel n dev ct];
                  ext := x |}
        else (Raise e,
              {| _MODEL_CACHE := _MODEL_CACHE w;
                 log := log w ++ [InfoLoading n dev ct];
                 trace := trace w ++ [CallWhisperModel n dev ct];
                 ext := x |})
    end.
Proof.
  cbn [load_candidates]. run. cbn.
  destruct (WhisperModel n dev ct (ext w)) as [[m|e] x]; cbn; [reflexivity|].
  destruct (isinstance_ValueError e); reflexivity.
Qed.

(** The constructor calls of one run of the loop are made for an initial
    part of the candidate list, in the order of the list. *)
Lemma load_candidates_trace (n : string) (cands : list string) :
  forall (last_error : option exn) (w : world),
  exists k,
    trace (snd (load_candidates cfg n cands last_error w))
    = trace w ++ List.map (CallWhisperModel n dev) (firstn k cands).
Proof.
  induction cands as [|ct rest IH]; intros last_error w.
  - exists 0. cbn. now rewrite app_nil_r.
  - rewrite load_candidates_step.
    destruct (WhisperModel n dev ct (ext w)) as [[m|e] x].
    + exists 1. reflexivity.
    + destruct (isinstance_ValueError e).
      * match goal with
        | |- context [load_candidates cfg n rest ?l ?w1] =>
            destruct (IH l w1) as [k Hk]
        end.
        exists (S k). rewrite Hk. cbn [trace firstn List.map].
        now rewrite <- app_assoc.
      * exists 1. reflexivity.
Qed.

(** The loop touches the cache only when a constructor call succeeds, and
    then stores the new handle under the name it was given. *)
Lemma load_candidates_cache (n : string) (cands : list string) :
  forall (last_error : option exn) (w : world),
    match fst (load_candidates cfg n cands last_error w) with
    | Return (inl m) =>
        _MODEL_CACHE (snd (load_candidates cfg n cands last_error w))
        = <[n := m]> (_MODEL_CACHE w)
    | _ =>
        _MODEL_CACHE (snd (load_candidates cfg n cands last_error w))
        = _MODEL_CACHE w
    end.
Proof.
  induction cands as [|ct rest IH]; intros last_error w.
  - reflexivity.
  - rewrite load_candidates_step.
    destruct (WhisperModel n dev ct (ext w)) as [[m|e] x]; [reflexivity|].
    destruct (isinstance_ValueError e); [|reflexivity].
    match goal with
    | |- context [load_candidates cfg n rest ?l ?w1] => apply (IH l w1)
    end.
Qed.

(** When every candidate is rejected with a [ValueError], the loop runs
    to its end, calls the constructor once per candidate and leaves the
    error of the last one in [last_error]. *)
Lemma load_candidates_all_rejected (n : string) (err : string -> exn)
    (cands : list string) :
  (forall c, In c cands -> forall x, exists x',
      WhisperModel n dev c x = (Raise (err c), x')
      /\ isinstance_ValueError (err c) = true) ->
  forall (last_error : option exn) (w : world),
  exists w',
    load_candidates cfg n cands last_error w
    = (Return (inr (fold_left (fun _ c => Some (err c)) cands last_error)), w')
    /\ trace w' = trace w ++ List.map (CallWhisperModel n dev) cands
    /\ _MODEL_CACHE w' = _MODEL_CACHE w.
Proof.
  induction cands as [|ct rest IH]; intros Hall last_error w.
  - exists w. cbn. now rewrite app_nil_r.
  - rewrite load_candidates_step.
    destruct (Hall ct (or_introl eq_refl) (ext w)) as (x' & -> & ->).
    match goal with
    | |- context [load_candidates cfg n rest ?l ?w1] =>
        destruct (IH (fun c Hc => Hall c (or_intror Hc)) l w1)
          as (w' & E & Ht & Hc)
    end.
    exists w'. split; [exact E|]. split; [|exact Hc].
    rewrite Ht. cbn [trace List.map]. now rewrite <- app_assoc.
Qed.

(** A failure that is not a [ValueError] ends the loop at once: it leaves
    the loop as it is, after the constructor calls for the candidates up
    to the failing one and none for those behind it. *)
Lemma load_candidates_fatal (n : string) (err : string -> exn)
    (pre : list string) (ct : string) (post : list string) (e : exn) :
  (forall c, In c pre -> forall x, exists x',
      WhisperModel n dev c x = (Raise (err c), x')
      /\ isinstance_ValueError (err c) = true) ->
  (forall x, exists x', WhisperModel n dev ct x = (Raise e, x')) ->
  isinstance_ValueError e = false ->
  forall (last_error : option exn) (w : world),
  exists w',
    load_candidates cfg n (pre ++ ct :: post) last_error w = (Raise e, w')
    /\ trace w' = trace w ++ List.map (CallWhisperModel n dev) (pre ++ [ct])
    /\ _MODEL_CACHE w' = _MODEL_CACHE w.
Proof.
  intros Hpre Hct He.
  induction pre as [|c pre IH]; intros last_error w.
  - cbn [app]. rewrite load_candidates_step.
    destruct (Hct (ext w)) as (x' & ->). rewrite He.
    eexists. split; [reflexivity|]. now split.
  - cbn [app]. rewrite load_candidates_step.
    destruct (Hpre c (or_introl eq_refl) (ext w)) as (x' & -> & ->).
    match goal with
    | |- context [load_candidates cfg n (pre ++ ct :: post) ?l ?w1] =>
        destruct (IH (fun c Hc => Hpre c (or_intror Hc)) l w1)
          as (w' & E & Ht & Hc)
    end.
    exists w'. split; [exact E|]. split; [|exact Hc].
    rewrite Ht. cbn [trace List.map app]. now rewrite <- app_assoc.
Qed.

(** ** [get_model] *)

Local Abbreviation cands := (_compute_type_candidates cfg).

(** [get_model] in one equation: the normalised name, the cache lookup,
    the loop and the classification of its last error. *)
Lemma get_model_unfold (model_name : string) (w : world) :
  let n := Spec.normalize (DEFAULT_MODEL_NAME cfg) (Some model_name) in
  exists w0,
    same_but_log w w0 /\
    get_model cfg model_name w
    = match _MODEL_CACHE w !! n with
      | Some m => (Return m, w0)
      | None =>
          match load_candidates cfg n cands None w0 with
          | (Return (inl m), w') => (Return m, w')
          | (Return (inr (Some e)), w') =>
              (Raise
                 (if missing e
                  then PyExc ModelNotAvailableError
                         (("Unable to load Whisper model '" +:+ n
                           +:+ "' with any compute type.")
                          +:+ " Model files are not available locally.")
                         (Some e)
                  else e), w')
          | (Return (inr None), w') =>
              (Raise
                 (PyExc RuntimeError
                    ("Unable to load Whisper model '" +:+ n
                     +:+ "' with any compute type.") None), w')
          | (Raise e, w') => (Raise e, w')
          end
      end.
Proof.
  intros n. destruct (normalize_run (Some model_name) w) as (w0 & E & Hs).
  exists w0. split; [exact Hs|].
  unfold get_model. unfold bind at 1. rewrite E. fold n.
  unfold bind at 1. unfold cache_lookup.
  destruct Hs as (Hc & _ & _). rewrite Hc.
  destruct (_MODEL_CACHE w !! n) as [m|]; [reflexivity|].
  unfold bind.
  destruct (load_candidates cfg n cands None w0) as [[[m|[e|]]|e] w'];
    try reflexivity.
  unfold raise. now destruct (missing e).
Qed.

(** A name that is in the cache is answered from the cache. *)
Lemma get_model_hit (model_name : string) (w : world) (h : Model) :
  _MODEL_CACHE w !! Spec.normalize (DEFAULT_MODEL_NAME cfg) (Some model_name)
  = Some h ->
  exists w', get_model cfg model_name w = (Return h, w') /\ same_but_log w w'.
Proof.
  intros Hh. destruct (get_model_unfold model_name w) as (w0 & Hs & E).
  cbv zeta in E. rewrite Hh in E. now exists w0.
Qed.

(** What [get_model] does to the cache: nothing, or one insertion under
    the normalised name. *)
Lemma get_model_cache (model_name : string) (w : world) :
  _MODEL_CACHE (snd (get_model cfg model_name w)) = _MODEL_CACHE w
  \/ exists m,
       fst (get_model cfg model_name w) = Return m
       /\ _MODEL_CACHE (snd (get_model cfg model_name w))
          = <[Spec.normalize (DEFAULT_MODEL_NAME cfg) (Some model_name) := m]>
              (_MODEL_CACHE w).
Proof.
  destruct (get_model_unfold model_name w) as (w0 & (Hc & _ & _) & E).
  cbv zeta in E. rewrite E. clear E.
  set (n := Spec.normalize (DEFAULT_MODEL_NAME cfg) (Some model_name)).
  destruct (_MODEL_CACHE w !! n) as [m|]; [now left|].
  pose proof (load_candidates_cache n cands None w0) as Hl.
  destruct (load_candidates cfg n cands None w0) as [[[m|[e|]]|e] w'];
    cbn [fst snd] in *; rewrite Hc in Hl; try (now left).
  right. now exists m.
Qed.

(** A handle that [get_model] returns is the one stored under the
    normalised name when it returns. *)
Lemma get_model_stored (model_name : string) (w w1 : world) (h : Model) :
  get_model cfg model_name w = (Return h, w1) ->
  _MODEL_CACHE w1 !! Spec.normalize (DEFAULT_MODEL_NAME cfg) (Some model_name)
  = Some h.
Proof.
  intros Hg.
  destruct (get_model_unfold model_name w) as (w0 & (Hc & _ & _) & E).
  cbv zeta in E. rewrite E in Hg. clear E.
  set (n := Spec.normalize (DEFAULT_MODEL_NAME cfg) (Some model_name)) in *.
  destruct (_MODEL_CACHE w !! n) as [m|] eqn:El.
  - inversion Hg; subst. now rewrite Hc.
  - pose proof (load_candidates_cache n cands None w0) as Hl.
    destruct (load_candidates cfg n cands None w0) as [[[m|[e|]]|e] w'];
      cbn [fst snd] in *; inversion Hg; subst.
    rewrite Hl. apply lookup_insert_eq.
Qed.

(** The constructor calls of one [get_model] are made for an initial part
    of the candidate list, in its order. *)
Lemma get_model_trace (model_name : string) (w : world) :
  exists k,
    trace (snd (get_model cfg model_name w))
    = trace w
      ++ List.map
           (CallWhisperModel
              (Spec.normalize (DEFAULT_MODEL_NAME cfg) (Some model_name)) dev)
           (firstn k cands).
Proof.
  destruct (get_model_unfold model_name w) as (w0 & (_ & Ht & _) & E).
  cbv zeta in E. rewrite E. clear E.
  set (n := Spec.normalize (DEFAULT_MODEL_NAME cfg) (Some model_name)).
  destruct (_MODEL_CACHE w !! n) as [m|].
  - exists 0. cbn. now rewrite app_nil_r.
  - destruct (load_candidates_trace n cands None w0) as [k Hk].
    exists k. rewrite <- Ht.
    destruct (load_candidates cfg n cands None w0) as [[[m|[e|]]|e] w'];
      exact Hk.
Qed.

Lemma candidates_end_with_auto : exists front, cands = front ++ ["auto"].
Proof.
  pose proof (candidates_cases cfg) as Hc. cbv zeta in Hc.
  set (first := Spec.configured_or_auto (WHISPER_COMPUTE_TYPE cfg)) in *.
  destruct (String.eqb (PyStr.lower first) "float16").
  - exists [first; "int8_float32"; "int8"]. exact Hc.
  - destruct (String.eqb_spec first "auto") as [Ea|Ea].
    + exists []. now rewrite Hc, Ea.
    + exists [first]. exact Hc.
Qed.

Lemma last_error_of_loop (err : string -> exn) (front : list string)
    (final : string) (last_error : option exn) :
  fold_left (fun _ c => Some (err c)) (front ++ [final]) last_error
  = Some (err final).
Proof. now rewrite fold_left_app. Qed.

Lemma normalized_name_is_spec (model_name n : string) (w : world) :
  fst (normalize_model_name cfg (Some model_name) w) = Return n ->
  n = Spec.normalize (DEFAULT_MODEL_NAME cfg) (Some model_name).
Proof. rewrite normalize_value. congruence. Qed.

Lemma value_error_is_not_model_unavailable (e : exn) :
  isinstance_ValueError e = true -> isinstance_ModelNotAvailableError e = false.
Proof. destruct e as [[] ? ?|]; simpl; congruence. Qed.

(** C1, as amended: when the constructor rejects every compute-type
    candidate with a [ValueError], [get_model] raises
    [ModelNotAvailableError] (caused by the final candidate's error)
    exactly when the lowercased message of that error contains "not
    found", "no such file" or "could not be found"; otherwise it raises
    the final candidate's error object itself. *)
Theorem get_model_all_candidates_rejected
    (model_name n : string) (w : world) (err : string -> exn) :
  fst (normalize_model_name cfg (Some model_name) w) = Return n ->
  _MODEL_CACHE w !! n = None ->
  (forall c, In c cands -> forall x, exists x',
      WhisperModel n dev c x = (Raise (err c), x')
      /\ isinstance_ValueError (err c) = true) ->
  let final := err (List.last cands "") in
  (missing final = true ->
     exists msg,
       fst (get_model cfg model_name w)
       = Raise (PyExc ModelNotAvailableError msg (Some final)))
  /\ (missing final = false -> fst (get_model cfg model_name w) = Raise final)
  /\ (forall e,
        fst (get_model cfg model_name w) = Raise e ->
        (isinstance_ModelNotAvailableError e = true <-> missing final = true)).
Proof.
  intros Hn Hmiss Hall final.
  apply normalized_name_is_spec in Hn. subst n.
  set (n := Spec.normalize (DEFAULT_MODEL_NAME cfg) (Some model_name)) in *.
  destruct (get_model_unfold model_name w) as (w0 & _ & E).
  cbv zeta in E. fold n in E. rewrite Hmiss in E.
  destruct (load_candidates_all_rejected n err cands Hall None w0)
    as (w' & El & _ & _).
  rewrite El in E. clear El.
  destruct candidates_end_with_auto as [front Hf].
  assert (Hfinal : final = err "auto").
  { unfold final. rewrite Hf. now rewrite last_last. }
  rewrite Hf, last_error_of_loop, <- Hfinal in E.
  assert (Hve : isinstance_ValueError final = true).
  { rewrite Hfinal. destruct (Hall "auto") with (x := ext w) as (? & _ & H).
    - rewrite Hf. apply in_or_app. right. now left.
    - exact H. }
  rewrite E. cbn [fst]. clear E.
  destruct (missing final) eqn:Hm.
  - split; [intros _; eexists; reflexivity|].
    split; [discriminate|].
    intros e He. inversion He; subst. now split.
  - split; [discriminate|]. split; [reflexivity|].
    intros e He. inversion He; subst.
    rewrite (value_error_is_not_model_unavailable _ Hve).
    split; discriminate.
Qed.

(** The attempts of one run of the loop.  The constructor is called for
    an initial, non-empty part [tried] of the candidates, in the order of
    the list; every candidate of that part but the last was rejected with
    a [ValueError]; and the call for the last one decides how the loop
    ends: a handle, an exception that is no [ValueError], or, with no
    candidate left, a [ValueError] kept as the last error. *)
Lemma load_candidates_attempts (n : string) (candidates : list string) :
  candidates <> [] ->
  forall (last_error : option exn) (w : world),
  exists tried rest,
    candidates = tried ++ rest
    /\ tried <> []
    /\ trace (snd (load_candidates cfg n candidates last_error w))
       = trace w ++ List.map (CallWhisperModel n dev) tried
    /\ (forall c, In c (removelast tried) ->
        exists x x' e,
          WhisperModel n dev c x = (Raise e, x')
          /\ isinstance_ValueError e = true)
    /\ match fst (load_candidates cfg n candidates last_error w) with
       | Return (inl m) =>
           exists x x', WhisperModel n dev (List.last tried "") x = (Return m, x')
       | Return (inr le) =>
           rest = []
           /\ exists e x x',
                le = Some e
                /\ WhisperModel n dev (List.last tried "") x = (Raise e, x')
                /\ isinstance_ValueError e = true
       | Raise e =>
           exists x x',
             WhisperModel n dev (List.last tried "") x = (Raise e, x')
             /\ isinstance_ValueError e = false
       end.
Proof.
  induction candidates as [|ct rest0 IH]; [congruence|].
  intros _ last_error w. rewrite load_candidates_step.
  destruct (WhisperModel n dev ct (ext w)) as [[m|e] x] eqn:Ec.
  - exists [ct], rest0. cbn [fst snd trace removelast List.last List.map app].
    split; [reflexivity|]. split; [discriminate|]. split; [reflexivity|].
    split; [intros c []|]. now exists (ext w), x.
  - destruct (isinstance_ValueError e) eqn:Ev.
    + destruct rest0 as [|c1 rest1].
      * exists [ct], [].
        cbn [load_candidates ret fst snd trace removelast List.last List.map app].
        split; [reflexivity|]. split; [discriminate|]. split; [reflexivity|].
        split; [intros c []|]. split; [reflexivity|].
        now exists e, (ext w), x.
      * match goal with
        | |- context [load_candidates cfg n (c1 :: rest1) ?l ?w1] =>
            destruct (IH ltac:(discriminate) l w1)
              as (tried & rest & Hsplit & Hne & Ht & Hrej & Hend)
        end.
        exists (ct :: tried), rest.
        split; [cbn; now rewrite Hsplit|]. split; [discriminate|].
        split; [rewrite Ht; cbn [trace List.map]; now rewrite <- app_assoc|].
        destruct tried as [|t0 tried']; [congruence|].
        split.
        -- intros c Hc. change (removelast (ct :: t0 :: tried'))
             with (ct :: removelast (t0 :: tried')) in Hc.
           destruct Hc as [<-|Hc]; [now exists (ext w), x, e|now apply Hrej].
        -- change (List.last (ct :: t0 :: tried') "")
             with (List.last (t0 :: tried') ""). exact Hend.
    + exists [ct], rest0. cbn [fst snd trace removelast List.last List.map app].
      split; [reflexivity|]. split; [discriminate|]. split; [reflexivity|].
      split; [intros c []|]. now exists (ext w), x.
Qed.

(** C2: the candidate list is the configured value, trimmed, or "auto"
    when it is unset or blank; then "int8_float32" and "int8" when that
    value is "float16" up to case; then "auto"; a candidate already in
    the list is skipped.  For "float16" the list is "float16",
    "int8_float32", "int8", "auto".  The candidates are attempted in the
    order of the list: a name that is cached needs no attempt; for a name
    that is not, [get_model] calls the constructor for a non-empty initial
    part of the list, in its order, moves on from a candidate only when
    that candidate was rejected with a [ValueError], and ends with the
    call that decides its outcome: a handle, an exception that is no
    [ValueError], or a [ValueError] for the last candidate of the list. *)
Theorem compute_type_candidates_in_order :
  _compute_type_candidates cfg = Spec.candidates (WHISPER_COMPUTE_TYPE cfg)
  /\ (forall default device beam_size,
        _compute_type_candidates
          {| DEFAULT_MODEL_NAME := default; WHISPER_DEVICE := device;
             WHISPER_COMPUTE_TYPE := Some "float16";
             WHISPER_BEAM_SIZE := beam_size |}
        = ["float16"; "int8_float32"; "int8"; "auto"])
  /\ (forall model_name w,
        exists n,
          fst (normalize_model_name cfg (Some model_name) w) = Return n
          /\ (is_Some (_MODEL_CACHE w !! n) ->
              trace (snd (get_model cfg model_name w)) = trace w)
          /\ (_MODEL_CACHE w !! n = None ->
              exists tried rest,
                _compute_type_candidates cfg = tried ++ rest
                /\ tried <> []
                /\ trace (snd (get_model cfg model_name w))
                   = trace w ++ List.map (CallWhisperModel n dev) tried
                /\ (forall c, In c (removelast tried) ->
                    exists x x' e,
                      WhisperModel n dev c x = (Raise e, x')
                      /\ isinstance_ValueError e = true)
                /\ ((exists m x x',
                        WhisperModel n dev (List.last tried "") x = (Return m, x')
                        /\ fst (get_model cfg model_name w) = Return m)
                    \/ (exists e x x',
                          WhisperModel n dev (List.last tried "") x = (Raise e, x')
                          /\ isinstance_ValueError e = false
                          /\ fst (get_model cfg model_name w) = Raise e)
                    \/ (rest = []
                        /\ exists e x x' raised,
                             WhisperModel n dev (List.last tried "") x
                             = (Raise e, x')
                             /\ isinstance_ValueError e = true
                             /\ fst (get_model cfg model_name w) = Raise raised)))).
Proof.
  split; [apply candidates_refine_spec|].
  split; [reflexivity|].
  intros model_name w.
  exists (Spec.normalize (DEFAULT_MODEL_NAME cfg) (Some model_name)).
  split; [apply normalize_value|].
  destruct (get_model_unfold model_name w) as (w0 & (_ & Ht0 & _) & E).
  cbv zeta in E. rewrite E. clear E.
  set (n := Spec.normalize (DEFAULT_MODEL_NAME cfg) (Some model_name)).
  split.
  - intros [m Hm]. rewrite Hm. cbn [snd]. exact Ht0.
  - intros Hmiss. rewrite Hmiss.
    assert (Hne : cands <> []).
    { destruct candidates_end_with_auto as [front ->]. now destruct front. }
    destruct (load_candidates_attempts n cands Hne None w0)
      as (tried & rest & Hsplit & Htried & Ht & Hrej & Hend).
    exists tried, rest. split; [exact Hsplit|]. split; [exact Htried|].
    rewrite Ht0 in Ht.
    destruct (load_candidates cfg n cands None w0) as [[[m|le]|e] w'];
      cbn [fst snd] in *.
    + split; [exact Ht|]. split; [exact Hrej|].
      left. destruct Hend as (x & x' & Hc). now exists m, x, x'.
    + destruct Hend as (-> & e & x & x' & -> & Hc & Hv).
      split; [exact Ht|]. split; [exact Hrej|].
      right. right. split; [reflexivity|].
      exists e, x, x'. eexists. split; [exact Hc|]. split; [exact Hv|reflexivity].
    + split; [exact Ht|]. split; [exact Hrej|].
      right. left. destruct Hend as (x & x' & Hc & Hv). now exists e, x, x'.
Qed.

(** C3: once [get_model] has returned a handle for a name, the next call
    for that name returns the same handle and leaves the cache, the
    collaborators and the list of constructor calls as they were. *)
Theorem get_model_second_call_is_a_hit
    (model_name : string) (w w1 : world) (h : Model) :
  get_model cfg model_name w = (Return h, w1) ->
  exists w2,
    get_model cfg model_name w1 = (Return h, w2)
    /\ _MODEL_CACHE w2 = _MODEL_CACHE w1
    /\ trace w2 = trace w1
    /\ ext w2 = ext w1.
Proof.
  intros Hg. apply get_model_stored in Hg.
  destruct (get_model_hit model_name w1 h Hg) as (w2 & E & Hs).
  now exists w2.
Qed.

(** C7: in a cache-miss load only a [ValueError] moves [get_model] on to
    the next candidate.  After candidates rejected with a [ValueError],
    a candidate whose constructor raises anything else makes [get_model]
    raise that exception; the constructor has then been called for the
    candidates up to that one and for none behind it, and nothing is
    cached. *)
Theorem get_model_propagates_other_errors
    (model_name n : string) (w : world) (err : string -> exn)
    (pre : list string) (ct : string) (post : list string) (e : exn) :
  fst (normalize_model_name cfg (Some model_name) w) = Return n ->
  _MODEL_CACHE w !! n = None ->
  _compute_type_candidates cfg = pre ++ ct :: post ->
  (forall c, In c pre -> forall x, exists x',
      WhisperModel n dev c x = (Raise (err c), x')
      /\ isinstance_ValueError (err c) = true) ->
  (forall x, exists x', WhisperModel n dev ct x = (Raise e, x')) ->
  isinstance_ValueError e = false ->
  fst (get_model cfg model_name w) = Raise e
  /\ trace (snd (get_model cfg model_name w))
     = trace w ++ List.map (CallWhisperModel n dev) (pre ++ [ct])
  /\ _MODEL_CACHE (snd (get_model cfg model_name w)) = _MODEL_CACHE w.
Proof.
  intros Hn Hmiss Hc Hpre Hct He.
  apply normalized_name_is_spec in Hn. subst n.
  set (n := Spec.normalize (DEFAULT_MODEL_NAME cfg) (Some model_name)) in *.
  destruct (get_model_unfold model_name w) as (w0 & (Hc0 & Ht0 & _) & E).
  cbv zeta in E. fold n in E. rewrite Hmiss, Hc in E.
  destruct (load_candidates_fatal n err pre ct post e Hpre Hct He None w0)
    as (w' & El & Ht & Hcache).
  rewrite El in E. rewrite E. cbn [fst snd].
  split; [reflexivity|]. split; congruence.
Qed.

(** ** Normalised names and the keys of the cache *)

Lemma strip_opt_or (requested_name : option string) :
  PyStr.strip (PyStr.opt_or requested_name "")
  = match requested_name with
    | Some s => PyStr.strip s
    | None => ""
    end.
Proof. now destruct requested_name as [[|c s]|]. Qed.

Lemma spec_normalize_shape (requested_name : option string) :
  exists name,
    Spec.normalize (DEFAULT_MODEL_NAME cfg) requested_name
    = Spec.alias_resolved name
    /\ (PyStr.strip (DEFAULT_MODEL_NAME cfg) = DEFAULT_MODEL_NAME cfg ->
        PyStr.strip name = name)
    /\ (name = "" -> DEFAULT_MODEL_NAME cfg = "")
    /\ (DEFAULT_MODEL_NAME cfg <> ""
        \/ PyStr.strip (PyStr.opt_or requested_name "") <> "" ->
        name <> "").
Proof.
  unfold Spec.normalize. rewrite strip_opt_or.
  destruct requested_name as [s|].
  - destruct (PyStr.strip s) as [|c t] eqn:Es.
    + exists (DEFAULT_MODEL_NAME cfg). repeat split; try congruence.
      now intros [H|H].
    + exists (String c t). repeat split; try congruence.
      intros _. rewrite <- Es. apply strip_idem.
  - exists (DEFAULT_MODEL_NAME cfg). repeat split; try congruence.
    now intros [H|H].
Qed.

Lemma spec_normalize_idem (requested_name : option string) :
  PyStr.strip (DEFAULT_MODEL_NAME cfg) = DEFAULT_MODEL_NAME cfg ->
  Spec.normalize (DEFAULT_MODEL_NAME cfg)
    (Some (Spec.normalize (DEFAULT_MODEL_NAME cfg) requested_name))
  = Spec.normalize (DEFAULT_MODEL_NAME cfg) requested_name.
Proof.
  intros Hd.
  destruct (spec_normalize_shape requested_name) as (name & -> & Hs & He & _).
  specialize (Hs Hd).
  destruct name as [|c t].
  - rewrite (He eq_refl). reflexivity.
  - now apply spec_normalize_resolved.
Qed.

Lemma normalized_is_fixed (requested_name : option string) :
  PyStr.strip (DEFAULT_MODEL_NAME cfg) = DEFAULT_MODEL_NAME cfg ->
  normalize_fixed cfg (Spec.normalize (DEFAULT_MODEL_NAME cfg) requested_name).
Proof.
  intros Hd w. rewrite normalize_value. now rewrite spec_normalize_idem.
Qed.

Lemma spec_normalize_aliased (model_name : string) :
  PyStr.lower (PyStr.strip model_name) = "large-v3-turbo" ->
  Spec.normalize (DEFAULT_MODEL_NAME cfg) (Some model_name) = "large-v3".
Proof.
  intros Hl. rewrite spec_normalize_given.
  - rewrite alias_resolved_cases. now rewrite Hl.
  - intros E. rewrite E in Hl. discriminate Hl.
Qed.

Lemma spec_normalize_large_v3 :
  Spec.normalize (DEFAULT_MODEL_NAME cfg) (Some "large-v3") = "large-v3".
Proof.
  rewrite spec_normalize_given; [|discriminate].
  now rewrite alias_resolved_cases.
Qed.

Lemma get_model_keys (model_name : string) (w : world) (k : string) :
  is_Some (_MODEL_CACHE (snd (get_model cfg model_name w)) !! k) ->
  is_Some (_MODEL_CACHE w !! k)
  \/ k = Spec.normalize (DEFAULT_MODEL_NAME cfg) (Some model_name).
Proof.
  destruct (get_model_cache model_name w) as [->|(m & _ & ->)]; [now left|].
  rewrite lookup_insert_is_Some. intros [<-|[_ H]]; [now right|now left].
Qed.

Lemma normalized_given_is_fixed (model_name : string) :
  PyStr.strip model_name <> "" ->
  normalize_fixed cfg (Spec.normalize (DEFAULT_MODEL_NAME cfg) (Some model_name)).
Proof.
  intros Hn w. rewrite normalize_value, (spec_normalize_given _ Hn).
  f_equal. apply spec_normalize_resolved; [apply strip_idem|exact Hn].
Qed.

Lemma get_models_keys_fixed (names : list string) :
  PyStr.strip (DEFAULT_MODEL_NAME cfg) = DEFAULT_MODEL_NAME cfg
  \/ Forall (fun n => PyStr.strip n <> "") names ->
  forall w : world,
    (forall k, is_Some (_MODEL_CACHE w !! k) -> normalize_fixed cfg k) ->
    forall k, is_Some (_MODEL_CACHE (get_models cfg names w) !! k) ->
              normalize_fixed cfg k.
Proof.
  induction names as [|n names IH]; intros Hd w Hw k Hk.
  - now apply Hw.
  - cbn [get_models] in Hk. revert k Hk. apply IH.
    + destruct Hd as [Hd|Hd]; [now left|right]. now inversion Hd.
    + intros k Hk. destruct (get_model_keys n w k Hk) as [H| ->].
      * now apply Hw.
      * destruct Hd as [Hd|Hd]; [now apply normalized_is_fixed|].
        apply normalized_given_is_fixed. now inversion Hd.
Qed.

Lemma get_model_same_entry (a b : string) (w w1 : world) (h : Model) :
  Spec.normalize (DEFAULT_MODEL_NAME cfg) (Some a)
  = Spec.normalize (DEFAULT_MODEL_NAME cfg) (Some b) ->
  get_model cfg a w = (Return h, w1) ->
  exists w2, get_model cfg b w1 = (Return h, w2) /\ same_but_log w1 w2.
Proof.
  intros Hab Hg. apply get_model_stored in Hg. rewrite Hab in Hg.
  now apply get_model_hit.
Qed.

(** C5: an absent, an empty and a blank request are all normalised to
    the alias-resolved default; the alias table is looked up with the
    lowercased name and gives the target as the table spells it; with the
    default "large-v3-turbo", no request and the request "LARGE-V3-TURBO"
    both give "large-v3". *)
Theorem normalize_default_and_alias (w : world) :
  (fst (normalize_model_name cfg None w)
   = Return (Spec.alias_resolved (DEFAULT_MODEL_NAME cfg))
   /\ fst (normalize_model_name cfg (Some "") w)
      = fst (normalize_model_name cfg None w)
   /\ fst (normalize_model_name cfg (Some "   ") w)
      = fst (normalize_model_name cfg None w))
  /\ (forall requested_name target,
        MODEL_ALIASES !! PyStr.lower (PyStr.strip requested_name) = Some target ->
        fst (normalize_model_name cfg (Some requested_name) w) = Return target)
  /\ (DEFAULT_MODEL_NAME cfg = "large-v3-turbo" ->
      fst (normalize_model_name cfg None w) = Return "large-v3"
      /\ fst (normalize_model_name cfg (Some "LARGE-V3-TURBO") w)
         = Return "large-v3").
Proof.
  rewrite !normalize_value.
  split; [repeat split|split].
  - intros requested_name target Ha. rewrite normalize_value.
    rewrite alias_lookup in Ha.
    destruct (String.eqb_spec (PyStr.lower (PyStr.strip requested_name))
                "large-v3-turbo") as [Hl|]; [|discriminate].
    inversion Ha; subst. now rewrite spec_normalize_aliased.
  - intros Hd. split.
    + unfold Spec.normalize. rewrite Hd. now rewrite alias_resolved_cases.
    + now rewrite spec_normalize_aliased.
Qed.

(** C8, as amended: [normalize_model_name] never raises, whatever the
    request and the configured default; the string it returns is not
    empty provided the configured default model name is not empty or the
    request, trimmed, is not empty. *)
Theorem normalize_returns_nonempty (requested_name : option string) (w : world) :
  exists v w',
    normalize_model_name cfg requested_name w = (Return v, w')
    /\ (DEFAULT_MODEL_NAME cfg <> ""
        \/ PyStr.strip (PyStr.opt_or requested_name "") <> "" ->
        v <> "").
Proof.
  destruct (normalize_run requested_name w) as (w' & E & _).
  eexists. exists w'. split; [exact E|].
  intros Hd.
  destruct (spec_normalize_shape requested_name) as (name & -> & _ & _ & Hn).
  apply alias_resolved_nonempty. now apply Hn.
Qed.

(** C10, as amended: [get_model] looks up and stores under the name it
    normalises itself.  Provided the configured default model name has
    no surrounding whitespace, or no call passes a blank name, every key of
    the cache stays a fixed point of [normalize_model_name] through a
    sequence of [get_model] calls.  A handle returned for "large-v3-turbo"
    is the one then returned for "large-v3", and the other way round,
    without a new load; and a call with an aliased name adds no key but
    "large-v3". *)
Theorem get_model_keys_are_normalized (w : world) (names : list string) :
  (forall k, is_Some (_MODEL_CACHE w !! k) -> normalize_fixed cfg k) ->
  PyStr.strip (DEFAULT_MODEL_NAME cfg) = DEFAULT_MODEL_NAME cfg
  \/ Forall (fun n => PyStr.strip n <> "") names ->
  (forall k,
      is_Some (_MODEL_CACHE (get_models cfg names w) !! k) ->
      normalize_fixed cfg k)
  /\ (forall h w1,
        get_model cfg "large-v3-turbo" w = (Return h, w1) ->
        exists w2,
          get_model cfg "large-v3" w1 = (Return h, w2) /\ same_but_log w1 w2)
  /\ (forall h w1,
        get_model cfg "large-v3" w = (Return h, w1) ->
        exists w2,
          get_model cfg "large-v3-turbo" w1 = (Return h, w2)
          /\ same_but_log w1 w2)
  /\ (forall aliased k,
        PyStr.lower (PyStr.strip aliased) = "large-v3-turbo" ->
        is_Some (_MODEL_CACHE (snd (get_model cfg aliased w)) !! k) ->
        is_Some (_MODEL_CACHE w !! k) \/ k = "large-v3").
Proof.
  intros Hw Hd.
  assert (Ht : Spec.normalize (DEFAULT_MODEL_NAME cfg) (Some "large-v3-turbo")
               = "large-v3") by now apply spec_normalize_aliased.
  pose proof spec_normalize_large_v3 as Hl.
  split; [|split; [|split]].
  - now apply get_models_keys_fixed.
  - intros h w1. apply get_model_same_entry. congruence.
  - intros h w1. apply get_model_same_entry. congruence.
  - intros aliased k Ha Hk.
    destruct (get_model_keys aliased w k Hk) as [H| ->]; [now left|].
    right. now apply spec_normalize_aliased.
Qed.

(** ** [run_transcription] *)

Lemma segment_text_trimmed (segment : Segment) :
  PyStr.strip (PyStr.opt_or (seg_text segment) "") = Spec.trimmed_text segment.
Proof.
  unfold Spec.trimmed_text. now destruct (seg_text segment) as [[|c t]|].
Qed.

(** The loop appends to [collected_text] the trimmed texts that are not
    empty, in the order of the segments. *)
Lemma collect_text (yielded : list Segment) :
  forall (index : nat) (segments : list segment_dict) (collected_text : list string),
    snd (collect index yielded segments collected_text)
    = collected_text
      ++ List.filter PyStr.truthy (List.map Spec.trimmed_text yielded).
Proof.
  induction yielded as [|segment rest IH]; intros index segments collected_text.
  - cbn. now rewrite app_nil_r.
  - cbn [collect List.map List.filter]. rewrite IH, segment_text_trimmed.
    destruct (PyStr.truthy (Spec.trimmed_text segment)); [|reflexivity].
    now rewrite <- app_assoc.
Qed.

(** The loop appends one dictionary per segment. *)
Lemma collect_length (yielded : list Segment) :
  forall (index : nat) (segments : list segment_dict) (collected_text : list string),
    length (fst (collect index yielded segments collected_text))
    = length segments + length yielded.
Proof.
  induction yielded as [|segment rest IH]; intros index segments collected_text.
  - cbn. lia.
  - cbn [collect]. rewrite IH, length_app. cbn. lia.
Qed.

(** C6: when the model is available and its generator yields a sequence
    of segments to the end, [run_transcription] returns, and the text it
    returns is the trimmed texts of the segments whose trimmed text is
    not empty, joined by single spaces and trimmed again, with one
    dictionary per segment. *)
Theorem run_transcription_full_text
    (audio_path model_name : string) (w w1 : world) (h : Model)
    (yielded : list Segment) (x : Ext) :
  get_model cfg model_name w = (Return h, w1) ->
  transcribe h audio_path (WHISPER_BEAM_SIZE cfg) true (ext w1)
  = (Return (yielded, None), x) ->
  exists segments w2,
    run_transcription cfg audio_path model_name w
    = (Return (Spec.full_text yielded, segments), w2)
    /\ length segments = length yielded.
Proof.
  intros Hg Ht. unfold run_transcription.
  unfold bind at 1. rewrite Hg.
  unfold bind, external. rewrite Ht.
  pose proof (collect_text yielded 0 [] []) as Hc.
  pose proof (collect_length yielded 0 [] []) as Hl.
  destruct (collect 0 yielded [] []) as [segments collected_text].
  cbn [fst snd app length] in Hc, Hl. subst collected_text.
  unfold ret. eexists. eexists. split; [reflexivity|exact Hl].
Qed.

(** ** The handler *)

(** The [finally] clause calls [unlink] on the temporary file after the
    [try] block and its [except] clauses, however they end, and what
    [unlink] answers does not change the outcome. *)
Lemma finally_removes_temp_file (file_name temp_path selected_model : string)
    (w : world) :
  let body := transcribe_or_fail cfg file_name temp_path selected_model w in
  let stmt :=
    try_finally (transcribe_or_fail cfg file_name temp_path selected_model)
      (remove_temp_file temp_path) w in
  fst stmt = fst body
  /\ trace (snd stmt) = trace (snd body) ++ [CallUnlink temp_path]
  /\ _MODEL_CACHE (snd stmt) = _MODEL_CACHE (snd body).
Proof.
  cbv zeta. unfold try_finally.
  destruct (transcribe_or_fail cfg file_name temp_path selected_model w)
    as [o w'].
  unfold remove_temp_file, try_except, external, logger.
  destruct (unlink temp_path (ext w')) as [[msg|] x']; cbn; now repeat split.
Qed.

(** The two [except] clauses: what the [try] block raises is turned into
    a 503 for a [ModelNotAvailableError] and into a 500 otherwise. *)
Lemma transcribe_or_fail_raises (file_name temp_path selected_model : string)
    (w w1 : world) (e : exn) :
  run_transcription cfg temp_path selected_model w = (Raise e, w1) ->
  fst (transcribe_or_fail cfg file_name temp_path selected_model w)
  = Raise
      (if isinstance_ModelNotAvailableError e
       then HTTPException 503
              ("Model '" +:+ selected_model
               +:+ "' is not available locally. Download it before retrying.")
       else HTTPException 500 "Whisper transcription failed.").
Proof.
  intros Hr. unfold transcribe_or_fail, try_except.
  unfold bind at 1. rewrite Hr.
  now destruct (isinstance_ModelNotAvailableError e).
Qed.

(** The model that [receive_upload] selects is the normalised form or
    query value. *)
Lemma receive_upload_selected (request : Request) (w w' : world)
    (file_name temp_path selected_model : string) :
  receive_upload cfg request w
  = (Return (file_name, temp_path, selected_model), w') ->
  selected_model
  = Spec.normalize (DEFAULT_MODEL_NAME cfg)
      (form_or_query (model request) (query_params_model request)).
Proof.
  unfold receive_upload.
  destruct (filename (file request)) as [fn|]; [|discriminate].
  destruct (PyStr.truthy fn); cbn [negb]; [|discriminate].
  unfold bind at 1, try_except.
  destruct (read (file request)) as [[|b bytes]|e]; try discriminate.
  unfold bind at 1, external.
  destruct (NamedTemporaryFile _ _) as [[tp|e] x1]; [|discriminate].
  unfold bind at 1.
  destruct (tmp_file_write _ _ _) as [[[]|e] x2]; [|discriminate].
  unfold bind at 1.
  match goal with
  | |- context [normalize_model_name cfg ?r ?w0] =>
      destruct (normalize_run r w0) as (w3 & -> & _)
  end.
  unfold bind, logger, ret. congruence.
Qed.

(** C4: for a request that has reached the [try] statement, a
    [ModelNotAvailableError] raised by the transcription gives the
    response 503 whose detail names the selected (normalised) model, and
    any other exception gives the response 500 with a fixed detail, the
    same whatever the exception was. *)
Theorem create_transcription_failure_mapping
    (request : Request) (w wt w1 : world)
    (file_name temp_path selected_model : string) (e : exn) :
  receive_upload cfg request w
  = (Return (file_name, temp_path, selected_model), wt) ->
  run_transcription cfg temp_path selected_model wt = (Raise e, w1) ->
  fst (create_transcription cfg request w)
  = Raise
      (if isinstance_ModelNotAvailableError e
       then HTTPException 503
              ("Model '" +:+ selected_model
               +:+ "' is not available locally. Download it before retrying.")
       else HTTPException 500 "Whisper transcription failed.")
  /\ (forall w', fst (normalize_model_name cfg
                        (form_or_query (model request)
                           (query_params_model request)) w')
                 = Return selected_model).
Proof.
  intros Hu Hr. split.
  - unfold create_transcription. unfold bind at 1. rewrite Hu.
    unfold bind at 1.
    pose proof (finally_removes_temp_file file_name temp_path selected_model wt)
      as (Hf & _ & _).
    rewrite (transcribe_or_fail_raises _ _ _ _ _ _ Hr) in Hf.
    destruct (try_finally _ _ wt) as [o w2]. cbn [fst] in Hf. now subst o.
  - intros w'. rewrite normalize_value.
    now rewrite (receive_upload_selected _ _ _ _ _ _ Hu).
Qed.

(** Once the upload has been received, the handler calls [unlink] on the
    temporary file before it ends, however the transcription ended. *)
Lemma create_transcription_unlinks (request : Request) (w wt : world)
    (file_name temp_path selected_model : string) :
  receive_upload cfg request w
  = (Return (file_name, temp_path, selected_model), wt) ->
  exists before after,
    trace (snd (create_transcription cfg request w))
    = before ++ CallUnlink temp_path :: after.
Proof.
  intros Hu. unfold create_transcription. unfold bind at 1. rewrite Hu.
  unfold bind at 1.
  pose proof (finally_removes_temp_file file_name temp_path selected_model wt)
    as (_ & Ht & _).
  cbv zeta in Ht.
  set (body := transcribe_or_fail cfg file_name temp_path selected_model wt) in *.
  destruct (try_finally _ _ wt) as [[r|e] w2]; cbn [snd] in Ht.
  - unfold bind, external, ret.
    destruct (uuid4_hex (ext w2)) as [hex x1]. cbn [ext].
    destruct (time_time x1) as [t x2]. cbn [snd trace].
    rewrite Ht. exists (trace (snd body)), [CallUuid4; CallTime].
    now rewrite <- !app_assoc.
  - cbn [snd]. rewrite Ht. exists (trace (snd body)), []. reflexivity.
Qed.

End ServerFacts.

(** * The theorems on the scripted runtime *)

Section Scenarios.

Import Scripted.

(** The fallback of [test_get_model_falls_back_when_float16_not_supported]:
    "float16" is rejected, "int8_float32" is loaded. *)
Example fallback_after_float16_rejected :
  let r := get_model (a_config "large-v3-turbo" "float16") "base"
             (start (a_script load_no_float16)) in
  fst r = Return ("base", "auto", "int8_float32")
  /\ trace (snd r)
     = [CallWhisperModel "base" "auto" "float16";
        CallWhisperModel "base" "auto" "int8_float32"].
Proof. vm_compute. split; reflexivity. Qed.

(** C1, the claim as stated fails: with "float16" configured, the
    constructor rejects "float16", "int8_float32" and "int8" with a
    [ValueError] and fails for the final candidate "auto" with a
    [RuntimeError] whose message contains "not found".  Every candidate
    has failed, and [get_model] raises that [RuntimeError], not
    [ModelNotAvailableError]. *)
Lemma get_model_fatal_error_not_reclassified :
  let s := a_script load_file_missing in
  let cfg := a_config "base" "float16" in
  let final :=
    PyExc RuntimeError "Unable to open file 'model.bin': file not found" None in
  Forall (fun c => exists e, on_load s "base" "auto" c = Raise e)
    (_compute_type_candidates cfg)
  /\ on_load s "base" "auto" (List.last (_compute_type_candidates cfg) "")
     = Raise final
  /\ PyStr.contains "not found" (PyStr.lower (str_exc final)) = true
  /\ fst (get_model cfg "base" (start s)) = Raise final
  /\ trace (snd (get_model cfg "base" (start s)))
     = List.map (CallWhisperModel "base" "auto")
         (_compute_type_candidates cfg)
  /\ isinstance_ModelNotAvailableError final = false.
Proof.
  cbv zeta. split.
  - change (_compute_type_candidates (a_config "base" "float16"))
      with ["float16"; "int8_float32"; "int8"; "auto"].
    repeat constructor; eexists; reflexivity.
  - repeat split; vm_compute; reflexivity.
Qed.

(** Every candidate rejected with "Model Not Found": the error is
    reported as a missing model. *)
Lemma get_model_all_candidates_rejected_witness :
  let s := a_script (load_rejects "Model Not Found") in
  let cfg := a_config "base" "float16" in
  _MODEL_CACHE (start s) !! "base" = None
  /\ exists msg,
       fst (get_model cfg "base" (start s))
       = Raise (PyExc ModelNotAvailableError msg
                  (Some (PyExc ValueError "Model Not Found" None))).
Proof.
  cbv zeta. split; [reflexivity|].
  apply (proj1 (get_model_all_candidates_rejected
                  (RT := runtime (a_script (load_rejects "Model Not Found")))
                  (a_config "base" "float16") "base" "base"
                  (start (a_script (load_rejects "Model Not Found")))
                  (fun _ => PyExc ValueError "Model Not Found" None)
                  eq_refl eq_refl
                  (fun c _ x => ex_intro _ x (conj eq_refl eq_refl)))).
  vm_compute. reflexivity.
Defined.

(** "float16" configured and rejected, "int8_float32" built: the attempts
    are for these two candidates, in this order, and "int8" and "auto" are
    left untried. *)
Lemma compute_type_candidates_in_order_witness :
  let s := a_script load_no_float16 in
  let cfg := a_config "large-v3-turbo" "float16" in
  _MODEL_CACHE (start s) !! "base" = None
  /\ exists tried rest,
       ["float16"; "int8_float32"; "int8"; "auto"] = tried ++ rest
       /\ tried <> []
       /\ [CallWhisperModel "base" "auto" "float16";
           CallWhisperModel "base" "auto" "int8_float32"]
          = List.map (CallWhisperModel (RT := runtime s) "base" "auto") tried.
Proof.
  cbv zeta. split; [reflexivity|].
  destruct (proj2 (proj2 (compute_type_candidates_in_order
                            (RT := runtime (a_script load_no_float16))
                            (a_config "large-v3-turbo" "float16")))
              "base" (start (a_script load_no_float16)))
    as (n & Hn & _ & Hmiss).
  vm_compute in Hn. injection Hn as <-.
  destruct (Hmiss eq_refl) as (tried & rest & Hsplit & Hne & Ht & _).
  exists tried, rest. split; [exact Hsplit|]. split; [exact Hne|].
  exact Ht.
Defined.

(** "base" is loaded by the first call and answered from the cache by
    the second. *)
Lemma get_model_second_call_is_a_hit_witness :
  let s := a_script load_ok in
  let cfg := a_config "large-v3-turbo" "float16" in
  let w1 := snd (get_model cfg "base" (start s)) in
  fst (get_model cfg "base" (start s)) = Return ("base", "auto", "float16")
  /\ exists w2,
       get_model cfg "base" w1 = (Return ("base", "auto", "float16"), w2)
       /\ _MODEL_CACHE w2 = _MODEL_CACHE w1
       /\ trace w2 = trace w1
       /\ ext w2 = ext w1.
Proof.
  cbv zeta. split; [vm_compute; reflexivity|].
  apply (get_model_second_call_is_a_hit
           (RT := runtime (a_script load_ok))
           (a_config "large-v3-turbo" "float16") "base"
           (start (a_script load_ok))).
  vm_compute. reflexivity.
Defined.

(** Three candidates rejected with a [ValueError], then a [RuntimeError]
    for "auto": it is raised as it is, after four constructor calls. *)
Lemma get_model_propagates_other_errors_witness :
  let s := a_script load_file_missing in
  let cfg := a_config "base" "float16" in
  let e := PyExc RuntimeError "Unable to open file 'model.bin': file not found" None in
  _compute_type_candidates cfg = ["float16"; "int8_float32"; "int8"] ++ "auto" :: []
  /\ isinstance_ValueError e = false
  /\ fst (get_model cfg "base" (start s)) = Raise e
  /\ trace (snd (get_model cfg "base" (start s)))
     = trace (start s)
       ++ List.map (CallWhisperModel "base" "auto")
            (["float16"; "int8_float32"; "int8"] ++ ["auto"])
  /\ _MODEL_CACHE (snd (get_model cfg "base" (start s)))
     = _MODEL_CACHE (start s).
Proof.
  cbv zeta. split; [reflexivity|]. split; [reflexivity|].
  apply (get_model_propagates_other_errors
           (RT := runtime (a_script load_file_missing))
           (a_config "base" "float16") "base" "base"
           (start (a_script load_file_missing))
           (fun _ => PyExc ValueError "unsupported compute type" None)
           ["float16"; "int8_float32"; "int8"] "auto" []).
  - reflexivity.
  - reflexivity.
  - reflexivity.
  - intros c Hc x. exists x. split; [|reflexivity].
    cbn in Hc. destruct Hc as [<-|[<-|[<-|[]]]]; reflexivity.
  - intros x. exists x. reflexivity.
  - reflexivity.
Defined.

(** C8, the claim as stated fails: with the default model name
    configured as the empty string, the normalised form of an absent
    request is the empty string. *)
Lemma normalize_empty_default_gives_empty :
  fst (normalize_model_name (a_config "" "auto") None (start (a_script load_ok)))
  = Return "".
Proof. vm_compute. reflexivity. Qed.

(** A blank request with the default "base". *)
Lemma normalize_returns_nonempty_witness :
  DEFAULT_MODEL_NAME (a_config "base" "auto") <> ""
  /\ exists v w',
       normalize_model_name (a_config "base" "auto") (Some "   ")
         (start (a_script load_ok)) = (Return v, w')
       /\ v <> "".
Proof.
  assert (Hd : DEFAULT_MODEL_NAME (a_config "base" "auto") <> "")
    by discriminate.
  split; [exact Hd|].
  destruct (normalize_returns_nonempty
              (RT := runtime (a_script load_ok))
              (a_config "base" "auto") (Some "   ")
              (start (a_script load_ok))) as (v & w' & E & Hv).
  exists v, w'. split; [exact E|exact (Hv (or_introl Hd))].
Defined.

(** The default "large-v3-turbo" and two spellings of the alias. *)
Lemma normalize_default_and_alias_witness :
  let cfg := a_config "large-v3-turbo" "auto" in
  let w := start (a_script load_ok) in
  MODEL_ALIASES !! PyStr.lower (PyStr.strip " Large-V3-Turbo ") = Some "large-v3"
  /\ fst (normalize_model_name cfg (Some " Large-V3-Turbo ") w) = Return "large-v3"
  /\ fst (normalize_model_name cfg None w) = Return "large-v3"
  /\ fst (normalize_model_name cfg (Some "LARGE-V3-TURBO") w) = Return "large-v3".
Proof.
  cbv zeta.
  assert (Ha : MODEL_ALIASES !! PyStr.lower (PyStr.strip " Large-V3-Turbo ")
               = Some "large-v3") by (vm_compute; reflexivity).
  split; [exact Ha|].
  destruct (normalize_default_and_alias
              (RT := runtime (a_script load_ok))
              (a_config "large-v3-turbo" "auto")
              (start (a_script load_ok))) as (_ & Halias & Hdefault).
  split; [exact (Halias " Large-V3-Turbo " "large-v3" Ha)|].
  exact (Hdefault eq_refl).
Defined.

(** C10, the claim as stated fails: with the default model name
    configured as " base", [get_model("")] stores its handle under the
    key " base", which [normalize_model_name] maps to "base". *)
Lemma get_model_key_not_fixed :
  let s := a_script load_ok in
  let cfg := a_config " base" "auto" in
  let w1 := snd (get_model cfg "" (start s)) in
  _MODEL_CACHE w1 !! " base" = Some (" base", "auto", "auto")
  /\ fst (normalize_model_name cfg (Some " base") w1) = Return "base"
  /\ ~ normalize_fixed (RT := runtime s) cfg " base".
Proof.
  cbv zeta. split; [vm_compute; reflexivity|].
  split; [vm_compute; reflexivity|].
  intros Hf. specialize (Hf (start (a_script load_ok))).
  vm_compute in Hf. discriminate Hf.
Qed.

(** From the empty cache, with the default "large-v3-turbo": three calls
    leave only fixed points as keys, and "large-v3" is answered with the
    handle loaded for "large-v3-turbo". *)
Lemma get_model_keys_are_normalized_witness :
  let s := a_script load_ok in
  let cfg := a_config "large-v3-turbo" "float16" in
  let w1 := snd (get_model cfg "large-v3-turbo" (start s)) in
  PyStr.strip (DEFAULT_MODEL_NAME cfg) = DEFAULT_MODEL_NAME cfg
  /\ (forall k,
        is_Some (_MODEL_CACHE (get_models cfg [""; "large-v3"; " BASE "] (start s)) !! k) ->
        normalize_fixed (RT := runtime s) cfg k)
  /\ exists w2,
       get_model cfg "large-v3" w1 = (Return ("large-v3", "auto", "float16"), w2)
       /\ same_but_log w1 w2.
Proof.
  cbv zeta.
  assert (Hw : forall k,
             is_Some (_MODEL_CACHE (start (a_script load_ok)) !! k) ->
             normalize_fixed (RT := runtime (a_script load_ok))
               (a_config "large-v3-turbo" "float16") k).
  { intros k [m Hm]. cbn in Hm. rewrite lookup_empty in Hm. discriminate Hm. }
  destruct (get_model_keys_are_normalized
              (RT := runtime (a_script load_ok))
              (a_config "large-v3-turbo" "float16")
              (start (a_script load_ok)) [""; "large-v3"; " BASE "]
              Hw (or_introl eq_refl))
    as (Hkeys & Hturbo & _ & _).
  split; [reflexivity|]. split; [exact Hkeys|].
  apply Hturbo. vm_compute. reflexivity.
Defined.

(** Four segments, two of them without text: the text is "Hello world.". *)
Lemma run_transcription_full_text_witness :
  let s := a_script load_ok in
  let cfg := a_config "base" "auto" in
  exists segments w2,
    run_transcription cfg "/tmp/tmpk3x9.mp3" "base" (start s)
    = (Return ("Hello world.", segments), w2)
    /\ length segments = 4.
Proof.
  cbv zeta.
  apply (run_transcription_full_text
           (RT := runtime (a_script load_ok))
           (a_config "base" "auto") "/tmp/tmpk3x9.mp3" "base"
           (start (a_script load_ok))
           (snd (get_model (a_config "base" "auto") "base"
                   (start (a_script load_ok))))
           ("base", "auto", "auto")
           [a_segment (Some " Hello "); a_segment None;
            a_segment (Some "   "); a_segment (Some "world.")] tt).
  - vm_compute. reflexivity.
  - reflexivity.
Defined.

(** No compute type can load the model and the last error says that it
    could not be found: the response is 503 and names "base". *)
Lemma create_transcription_failure_mapping_witness :
  let s := a_script (load_rejects "model could not be found") in
  let cfg := a_config "large-v3-turbo" "auto" in
  fst (receive_upload cfg a_request (start s))
  = Return ("speech.mp3", "/tmp/tmpk3x9.mp3", "base")
  /\ fst (create_transcription cfg a_request (start s))
     = Raise (HTTPException 503
                "Model 'base' is not available locally. Download it before retrying.").
Proof.
  cbv zeta. split; [vm_compute; reflexivity|].
  refine (proj1 (create_transcription_failure_mapping
           (RT := runtime (a_script (load_rejects "model could not be found")))
           (a_config "large-v3-turbo" "auto") a_request
           (start (a_script (load_rejects "model could not be found")))
           (snd (receive_upload (a_config "large-v3-turbo" "auto") a_request
                   (start (a_script (load_rejects "model could not be found")))))
           (snd (run_transcription (a_config "large-v3-turbo" "auto")
                   "/tmp/tmpk3x9.mp3" "base"
                   (snd (receive_upload (a_config "large-v3-turbo" "auto")
                           a_request
                           (start (a_script
                                     (load_rejects "model could not be found")))))))
           "speech.mp3" "/tmp/tmpk3x9.mp3" "base"
           (PyExc ModelNotAvailableError
              "Unable to load Whisper model 'base' with any compute type. Model files are not available locally."
              (Some (PyExc ValueError "model could not be found" None)))
           _ _)).
  - vm_compute. reflexivity.
  - vm_compute. reflexivity.
Defined.

(** C9, the code at the failing input: the temporary file is created,
    writing the upload to it fails, and the handler ends with that error
    without a call to [unlink]: the only calls made are the creation of
    the file and the write. *)
Lemma create_transcription_write_failure_leaves_file :
  let s := on_full_disk (a_script load_ok) in
  let r := create_transcription (a_config "large-v3-turbo" "auto") a_request
             (start s) in
  on_mktemp s = Return "/tmp/tmpk3x9.mp3"
  /\ fst r = Raise (PyExc OSError "[Errno 28] No space left on device" None)
  /\ trace (snd r)
     = [CallNamedTemporaryFile ".mp3";
        CallWrite "/tmp/tmpk3x9.mp3" [Byte.x49; Byte.x44; Byte.x33]]
  /\ ~ In (CallUnlink "/tmp/tmpk3x9.mp3") (trace (snd r)).
Proof.
  cbv zeta. split; [reflexivity|]. split; [vm_compute; reflexivity|].
  assert (Ht : trace (snd (create_transcription
                             (a_config "large-v3-turbo" "auto") a_request
                             (start (on_full_disk (a_script load_ok)))))
               = [CallNamedTemporaryFile ".mp3";
                  CallWrite "/tmp/tmpk3x9.mp3" [Byte.x49; Byte.x44; Byte.x33]])
    by (vm_compute; reflexivity).
  split; [exact Ht|]. rewrite Ht.
  intros [H|[H|[]]]; discriminate H.
Qed.

End Scenarios.

(** * Further facts: the candidate list *)

Lemma configured_or_auto_trimmed (configured : option string) :
  PyStr.strip (Spec.configured_or_auto configured)
  = Spec.configured_or_auto configured.
Proof.
  destruct configured as [s|]; [|reflexivity].
  unfold Spec.configured_or_auto.
  destruct (PyStr.strip s) as [|c t] eqn:Es; [reflexivity|].
  rewrite <- Es. apply strip_idem.
Qed.

(** X1: whatever is configured, the candidate list is not empty, holds no
    candidate twice, ends with "auto", has at most four entries, and each
    entry is a non-empty string without surrounding whitespace. *)
Theorem candidates_well_formed (cfg : settings) :
  _compute_type_candidates cfg <> []
  /\ List.NoDup (_compute_type_candidates cfg)
  /\ List.last (_compute_type_candidates cfg) "" = "auto"
  /\ length (_compute_type_candidates cfg) <= 4
  /\ Forall (fun c => c <> "" /\ PyStr.strip c = c) (_compute_type_candidates cfg).
Proof.
  pose proof (candidates_cases cfg) as Hc. cbv zeta in Hc.
  pose proof (configured_or_auto_truthy (WHISPER_COMPUTE_TYPE cfg)) as Ht.
  pose proof (configured_or_auto_trimmed (WHISPER_COMPUTE_TYPE cfg)) as Hs.
  apply truthy_true in Ht.
  set (first := Spec.configured_or_auto (WHISPER_COMPUTE_TYPE cfg)) in *.
  rewrite Hc. clear Hc.
  destruct (String.eqb_spec (PyStr.lower first) "float16") as [Hl|Hl].
  - assert (H1 : first <> "int8_float32")
      by (intros E; rewrite E in Hl; discriminate Hl).
    assert (H2 : first <> "int8")
      by (intros E; rewrite E in Hl; discriminate Hl).
    assert (H3 : first <> "auto")
      by (intros E; rewrite E in Hl; discriminate Hl).
    split; [discriminate|]. split.
    { repeat (apply List.NoDup_cons; [cbn; intuition congruence|]).
      apply List.NoDup_nil. }
    split; [reflexivity|]. split; [cbn; lia|].
    repeat constructor; try discriminate; assumption.
  - destruct (String.eqb_spec first "auto") as [Ea|Ea].
    + split; [discriminate|].
      split; [apply List.NoDup_cons; [cbn; tauto|apply List.NoDup_nil]|].
      split; [now rewrite Ea|]. split; [cbn; lia|].
      repeat constructor; assumption.
    + split; [discriminate|]. split.
      { repeat (apply List.NoDup_cons; [cbn; intuition congruence|]).
      apply List.NoDup_nil. }
      split; [reflexivity|]. split; [cbn; lia|].
      repeat constructor; try discriminate; assumption.
Qed.

(** * Further facts: the model cache *)

Section CacheFacts.

Context {RT : Runtime}.
Variable cfg : settings.

Local Abbreviation dev := (WHISPER_DEVICE cfg).
Local Abbreviation cands := (_compute_type_candidates cfg).

(** Where the outcome of the loop comes from: a handle was built by the
    constructor for one of the candidates; a loop that ran to its end
    holds the [ValueError] of its last candidate; an exception that
    leaves the loop was raised by the constructor and is no
    [ValueError]. *)
Lemma load_candidates_outcome (n : string) (candidates : list string) :
  forall (last_error : option exn) (w : world),
    match fst (load_candidates cfg n candidates last_error w) with
    | Return (inl m) =>
        exists c x x',
          In c candidates /\ WhisperModel n dev c x = (Return m, x')
    | Return (inr le) =>
        (candidates = [] /\ le = last_error)
        \/ exists e x x',
             candidates <> []
             /\ le = Some e
             /\ WhisperModel n dev (List.last candidates "") x = (Raise e, x')
             /\ isinstance_ValueError e = true
    | Raise e =>
        exists c x x',
          In c candidates /\ WhisperModel n dev c x = (Raise e, x')
          /\ isinstance_ValueError e = false
    end.
Proof.
  induction candidates as [|ct rest IH]; intros last_error w.
  - cbn. now left.
  - rewrite load_candidates_step.
    destruct (WhisperModel n dev ct (ext w)) as [[m|e] x] eqn:Ec.
    + cbn [fst]. exists ct, (ext w), x. split; [now left|exact Ec].
    + destruct (isinstance_ValueError e) eqn:Ev.
      * match goal with
        | |- context [load_candidates cfg n rest ?l ?w1] =>
            specialize (IH l w1);
            destruct (load_candidates cfg n rest l w1) as [[[m|le]|e'] w']
        end; cbn [fst] in *.
        -- destruct IH as (c & y & y' & Hin & Hc).
           exists c, y, y'. split; [now right|exact Hc].
        -- right. destruct IH as [[-> ->]|(e0 & y & y' & Hne & -> & Hc & Hv)].
           ++ exists e, (ext w), x. now repeat split.
           ++ exists e0, y, y'. split; [discriminate|].
              split; [reflexivity|]. split; [|exact Hv].
              destruct rest; [congruence|exact Hc].
        -- destruct IH as (c & y & y' & Hin & Hc & Hv).
           exists c, y, y'. split; [now right|now split].
      * cbn [fst]. exists ct, (ext w), x. split; [now left|now split].
Qed.

(** [get_model] on a miss, with the state in which the loop starts. *)
Lemma get_model_miss (model_name n : string) (w : world) :
  fst (normalize_model_name cfg (Some model_name) w) = Return n ->
  _MODEL_CACHE w !! n = None ->
  get_model cfg model_name w
  = match load_candidates cfg n cands None
            (snd (normalize_model_name cfg (Some model_name) w)) with
    | (Return (inl m), w') => (Return m, w')
    | (Return (inr (Some e)), w') =>
        (Raise
           (if missing e
            then PyExc ModelNotAvailableError
                   (("Unable to load Whisper model '" +:+ n
                     +:+ "' with any compute type.")
                    +:+ " Model files are not available locally.")
                   (Some e)
            else e), w')
    | (Return (inr None), w') =>
        (Raise
           (PyExc RuntimeError
              ("Unable to load Whisper model '" +:+ n
               +:+ "' with any compute type.") None), w')
    | (Raise e, w') => (Raise e, w')
    end.
Proof.
  intros Hn Hmiss.
  destruct (normalize_run cfg (Some model_name) w) as (w0 & E & (Hc & _ & _)).
  rewrite E in Hn. cbn [fst] in Hn. injection Hn as <-.
  unfold get_model. unfold bind at 1. rewrite E. cbn [snd].
  unfold bind at 1. unfold cache_lookup. rewrite Hc, Hmiss.
  unfold bind.
  destruct (load_candidates cfg _ cands None w0) as [[[m|[e|]]|e] w'];
    try reflexivity.
  unfold raise. now destruct (missing e).
Qed.

(** X2: an exception that leaves [get_model] is one the constructor raised
    for a candidate (anything but a [ValueError], or the [ValueError] of
    the final candidate "auto" when its text holds none of the phrases), or
    a [ModelNotAvailableError] whose cause is the [ValueError] the
    constructor raised for "auto".  The generic [RuntimeError] of the last
    line of [get_model] is never raised. *)
Theorem get_model_raises_only (model_name n : string) (w : world) (e : exn) :
  fst (normalize_model_name cfg (Some model_name) w) = Return n ->
  fst (get_model cfg model_name w) = Raise e ->
  (exists c x x',
      In c cands /\ WhisperModel n dev c x = (Raise e, x')
      /\ (isinstance_ValueError e = false
          \/ (c = "auto" /\ isinstance_ValueError e = true
              /\ missing e = false)))
  \/ (exists e0 x x' msg,
        e = PyExc ModelNotAvailableError msg (Some e0)
        /\ WhisperModel n dev "auto" x = (Raise e0, x')
        /\ isinstance_ValueError e0 = true
        /\ missing e0 = true).
Proof.
  intros Hn He. apply normalized_name_is_spec in Hn. subst n.
  set (n := Spec.normalize (DEFAULT_MODEL_NAME cfg) (Some model_name)) in *.
  destruct (get_model_unfold cfg model_name w) as (w0 & _ & E).
  cbv zeta in E. fold n in E. rewrite E in He. clear E.
  destruct (_MODEL_CACHE w !! n) as [m|]; [discriminate He|].
  destruct (candidates_end_with_auto cfg) as [front Hf].
  assert (Hlast : List.last cands "" = "auto").
  { rewrite Hf. apply last_last. }
  assert (Hin : In "auto" cands).
  { rewrite Hf. apply in_or_app. right. now left. }
  pose proof (load_candidates_outcome n cands None w0) as Ho.
  destruct (load_candidates cfg n cands None w0) as [[[m|[e1|]]|e1] w'];
    cbn [fst] in *.
  - discriminate He.
  - destruct Ho as [[_ Hle]|(e2 & x & x' & _ & Hle & Hc & Hv)];
      [discriminate Hle|].
    injection Hle as <-. rewrite Hlast in Hc.
    destruct (missing e1) eqn:Hm; injection He as <-.
    + right. exists e1, x, x'. eexists. now repeat split.
    + left. exists "auto", x, x'. split; [exact Hin|]. split; [exact Hc|].
      right. now repeat split.
  - destruct Ho as [[Hnil _]|(e2 & x & x' & _ & Hle & _)];
      [|discriminate Hle].
    rewrite Hf in Hnil. now destruct front.
  - injection He as <-. destruct Ho as (c & x & x' & Hc & Hr & Hv).
    left. exists c, x, x'. split; [exact Hc|]. split; [exact Hr|now left].
Qed.

(** X3: a handle that [get_model] returns was in the cache under the
    normalised name, or the name was not cached and the constructor built
    the handle for that name, the configured device and one of the
    candidates; it is then the entry under that name. *)
Theorem get_model_returns_only (model_name n : string) (w w1 : world) (h : Model) :
  fst (normalize_model_name cfg (Some model_name) w) = Return n ->
  get_model cfg model_name w = (Return h, w1) ->
  (_MODEL_CACHE w !! n = Some h /\ same_but_log w w1)
  \/ (_MODEL_CACHE w !! n = None
      /\ (exists c x x', In c cands /\ WhisperModel n dev c x = (Return h, x'))
      /\ _MODEL_CACHE w1 = <[n := h]> (_MODEL_CACHE w)).
Proof.
  intros Hn Hg. apply normalized_name_is_spec in Hn. subst n.
  set (n := Spec.normalize (DEFAULT_MODEL_NAME cfg) (Some model_name)) in *.
  destruct (get_model_unfold cfg model_name w) as (w0 & Hs & E).
  cbv zeta in E. fold n in E. rewrite E in Hg. clear E.
  destruct (_MODEL_CACHE w !! n) as [m|].
  - left. injection Hg as <- <-. now split.
  - right. split; [reflexivity|].
    pose proof (load_candidates_outcome n cands None w0) as Ho.
    pose proof (load_candidates_cache cfg n cands None w0) as Hc.
    destruct Hs as (Hs & _ & _).
    destruct (load_candidates cfg n cands None w0) as [[[m|[e1|]]|e1] w'];
      cbn [fst snd] in *; try discriminate Hg.
    injection Hg as <- <-. split; [exact Ho|]. now rewrite Hc, Hs.
Qed.

Lemma get_model_keeps (model_name : string) (w : world) :
  _MODEL_CACHE w ⊆ _MODEL_CACHE (snd (get_model cfg model_name w)).
Proof.
  destruct (get_model_unfold cfg model_name w) as (w0 & (Hs & _ & _) & E).
  cbv zeta in E. rewrite E. clear E.
  set (n := Spec.normalize (DEFAULT_MODEL_NAME cfg) (Some model_name)).
  destruct (_MODEL_CACHE w !! n) as [m|] eqn:El.
  - cbn [snd]. now rewrite Hs.
  - pose proof (load_candidates_cache cfg n cands None w0) as Hc.
    destruct (load_candidates cfg n cands None w0) as [[[m|[e1|]]|e1] w'];
      cbn [fst snd] in *; rewrite Hc, Hs; try reflexivity.
    now apply insert_subseteq.
Qed.

(** X4: the cache only grows.  Through any sequence of [get_model] calls
    every entry stays in the cache with the handle it had: nothing is
    evicted and nothing is replaced. *)
Theorem cache_only_grows (names : list string) (w : world) :
  _MODEL_CACHE w ⊆ _MODEL_CACHE (get_models cfg names w).
Proof.
  revert w. induction names as [|n names IH]; intros w; [reflexivity|].
  cbn [get_models]. etransitivity; [apply get_model_keeps|apply IH].
Qed.

(** X5: a [get_model] call that raises leaves the cache as it was. *)
Theorem get_model_failure_leaves_cache (model_name : string) (w : world) (e : exn) :
  fst (get_model cfg model_name w) = Raise e ->
  _MODEL_CACHE (snd (get_model cfg model_name w)) = _MODEL_CACHE w.
Proof.
  intros He.
  destruct (get_model_cache cfg model_name w) as [H|(m & Hm & _)]; [exact H|].
  rewrite Hm in He. discriminate He.
Qed.

(** The loop when some candidates are rejected with a [ValueError] and
    the next one is built. *)
Lemma load_candidates_success (n : string) (err : string -> exn)
    (pre : list string) (ct : string) (post : list string) (m : Model) :
  (forall c, In c pre -> forall x, exists x',
      WhisperModel n dev c x = (Raise (err c), x')
      /\ isinstance_ValueError (err c) = true) ->
  (forall x, exists x', WhisperModel n dev ct x = (Return m, x')) ->
  forall (last_error : option exn) (w : world),
  exists w',
    load_candidates cfg n (pre ++ ct :: post) last_error w = (Return (inl m), w')
    /\ trace w' = trace w ++ List.map (CallWhisperModel n dev) (pre ++ [ct])
    /\ _MODEL_CACHE w' = <[n := m]> (_MODEL_CACHE w)
    /\ log w'
       = log w
         ++ flat_map
              (fun c => [InfoLoading n dev c; WarnLoadFailed n c (err c)]) pre
         ++ [InfoLoading n dev ct].
Proof.
  intros Hpre Hct.
  induction pre as [|c pre IH]; intros last_error w.
  - cbn [app]. rewrite load_candidates_step.
    destruct (Hct (ext w)) as (x' & ->).
    eexists. split; [reflexivity|]. now repeat split.
  - cbn [app]. rewrite load_candidates_step.
    destruct (Hpre c (or_introl eq_refl) (ext w)) as (x' & -> & ->).
    match goal with
    | |- context [load_candidates cfg n (pre ++ ct :: post) ?l ?w1] =>
        destruct (IH (fun c Hc => Hpre c (or_intror Hc)) l w1)
          as (w' & E & Ht & Hc & Hl)
    end.
    exists w'. split; [exact E|]. split; [|split; [exact Hc|]].
    + rewrite Ht. cbn [trace List.map app]. now rewrite <- app_assoc.
    + rewrite Hl. cbn [log flat_map app]. now rewrite <- !app_assoc.
Qed.

(** X6: the fallback.  On a miss, when the constructor rejects the first
    candidates with a [ValueError] and builds a handle for the next one,
    [get_model] returns that handle and stores it under the normalised
    name.  The constructor is called for the rejected candidates and the
    accepted one, in order, and for none behind it; each rejection leaves
    a warning with the candidate and its error in the log. *)
Theorem get_model_falls_back
    (model_name n : string) (w : world) (err : string -> exn)
    (pre : list string) (ct : string) (post : list string) (m : Model) :
  fst (normalize_model_name cfg (Some model_name) w) = Return n ->
  _MODEL_CACHE w !! n = None ->
  _compute_type_candidates cfg = pre ++ ct :: post ->
  (forall c, In c pre -> forall x, exists x',
      WhisperModel n dev c x = (Raise (err c), x')
      /\ isinstance_ValueError (err c) = true) ->
  (forall x, exists x', WhisperModel n dev ct x = (Return m, x')) ->
  exists w',
    get_model cfg model_name w = (Return m, w')
    /\ _MODEL_CACHE w' = <[n := m]> (_MODEL_CACHE w)
    /\ trace w' = trace w ++ List.map (CallWhisperModel n dev) (pre ++ [ct])
    /\ log w'
       = log (snd (normalize_model_name cfg (Some model_name) w))
         ++ flat_map
              (fun c => [InfoLoading n dev c; WarnLoadFailed n c (err c)]) pre
         ++ [InfoLoading n dev ct].
Proof.
  intros Hn Hmiss Hc Hpre Hct.
  rewrite (get_model_miss model_name n w Hn Hmiss), Hc.
  destruct (normalize_run cfg (Some model_name) w) as (w0 & E & (Hc0 & Ht0 & _)).
  rewrite E. cbn [snd].
  destruct (load_candidates_success n err pre ct post m Hpre Hct None w0)
    as (w' & -> & Ht & Hcache & Hl).
  exists w'. split; [reflexivity|]. split; [congruence|]. split; congruence.
Qed.

End CacheFacts.

(** * Further facts: names and error texts *)

Section NameFacts.

Context {RT : Runtime}.
Variable cfg : settings.

(** X7: a name that is not blank is normalised without the configured
    default.  If its trimmed, lowercased form is the alias, the result is
    "large-v3" and one info record with the trimmed name as given and the
    target is logged; otherwise the result is the trimmed name in the case
    it was given, and the state is untouched. *)
Theorem normalize_given_name (requested_name : string) (w : world) :
  PyStr.strip requested_name <> "" ->
  normalize_model_name cfg (Some requested_name) w
  = if String.eqb (PyStr.lower (PyStr.strip requested_name)) "large-v3-turbo"
    then (Return "large-v3",
          {| _MODEL_CACHE := _MODEL_CACHE w;
             log := log w
                    ++ [InfoAliasApplied (PyStr.strip requested_name) "large-v3"];
             trace := trace w;
             ext := ext w |})
    else (Return (PyStr.strip requested_name), w).
Proof.
  intros Hn. unfold normalize_model_name.
  assert (E : PyStr.or_ (PyStr.strip (PyStr.opt_or (Some requested_name) ""))
                (DEFAULT_MODEL_NAME cfg)
              = PyStr.strip requested_name).
  { rewrite strip_opt_or. unfold PyStr.or_.
    now destruct (PyStr.strip requested_name). }
  rewrite E, alias_lookup.
  now destruct (String.eqb _ "large-v3-turbo").
Qed.

Lemma spec_normalize_source (requested_name : option string) :
  Spec.normalize (DEFAULT_MODEL_NAME cfg) requested_name
  = Spec.alias_resolved (DEFAULT_MODEL_NAME cfg)
  \/ exists s,
       PyStr.strip s <> ""
       /\ Spec.normalize (DEFAULT_MODEL_NAME cfg) requested_name
          = Spec.alias_resolved (PyStr.strip s).
Proof.
  destruct requested_name as [s|]; [|now left].
  destruct (PyStr.strip s) as [|c t] eqn:Es.
  - left. now apply spec_normalize_blank.
  - right. exists s. rewrite Es. split; [discriminate|].
    rewrite <- Es. apply spec_normalize_given. rewrite Es. discriminate.
Qed.

(** X8: whatever default is configured, normalising a name that
    [normalize_model_name] returned gives a fixed point.  The handler
    passes its selected model to [get_model], which normalises it again:
    the key used for the cache is stable under further normalisation. *)
Theorem normalize_twice_is_fixed
    (requested_name : option string) (w w' : world) (n1 n2 : string) :
  fst (normalize_model_name cfg requested_name w) = Return n1 ->
  fst (normalize_model_name cfg (Some n1) w') = Return n2 ->
  normalize_fixed cfg n2.
Proof.
  rewrite !normalize_value. intros H1 H2.
  injection H1 as <-. injection H2 as <-.
  set (y := Spec.normalize (DEFAULT_MODEL_NAME cfg) requested_name).
  destruct (PyStr.strip y) as [|c t] eqn:Ey.
  - (* the first result is blank: it is the default, itself blank *)
    rewrite (spec_normalize_blank cfg y Ey).
    assert (Hd : PyStr.strip (DEFAULT_MODEL_NAME cfg) = ""
                 /\ Spec.alias_resolved (DEFAULT_MODEL_NAME cfg)
                    = DEFAULT_MODEL_NAME cfg).
    { subst y.
      destruct (spec_normalize_source requested_name) as [E|(s & Hs & E)];
        rewrite E in Ey; rewrite alias_resolved_cases in Ey;
        rewrite alias_resolved_cases.
      - destruct (String.eqb _ _); [discriminate Ey|now split].
      - destruct (String.eqb _ _); [discriminate Ey|].
        rewrite strip_idem in Ey. contradiction. }
    destruct Hd as (Hd & Ha). rewrite Ha. intros w0.
    rewrite normalize_value, (spec_normalize_blank cfg _ Hd). now rewrite Ha.
  - apply normalized_given_is_fixed. rewrite Ey. discriminate.
Qed.

(** [p in s] at the start of [s]: [s] begins with [p]. *)
Lemma startswith_iff (p s : string) :
  PyStr.startswith p s = true <-> exists post, s = p +:+ post.
Proof.
  revert s. induction p as [|a p IH]; intros s; cbn.
  - split; [intros _; now exists s|reflexivity].
  - destruct s as [|b s].
    + split; [discriminate|]. intros [post H]. discriminate H.
    + rewrite andb_true_iff, IH. split.
      * intros [Hab [post ->]]. apply Ascii.eqb_eq in Hab. subst b.
        now exists post.
      * intros [post H]. injection H as -> ->. split; [apply Ascii.eqb_refl|].
        now exists post.
Qed.

(** [needle in hay]: [hay] splits around an occurrence of [needle]. *)
Lemma contains_iff (needle hay : string) :
  PyStr.contains needle hay = true
  <-> exists pre post, hay = pre +:+ needle +:+ post.
Proof.
  induction hay as [|b hay IH]; cbn [PyStr.contains].
  - rewrite orb_false_r, startswith_iff. split.
    + intros [post H]. now exists "", post.
    + intros [[|a pre] [post H]]; [now exists post|discriminate H].
  - rewrite orb_true_iff, startswith_iff, IH. split.
    + intros [[post H]|(pre & post & H)].
      * now exists "", post.
      * exists (String b pre), post. cbn. now rewrite H.
    + intros [[|a pre] [post H]].
      * left. now exists post.
      * right. cbn in H. injection H as -> ->. now exists pre, post.
Qed.

(** X9: a load error counts as a missing model exactly when its text, in
    lowercase, has "not found", "no such file" or "could not be found"
    somewhere inside it. *)
Theorem missing_iff_phrase_occurs (e : exn) :
  missing e = true
  <-> exists phrase pre post,
        In phrase ["not found"; "no such file"; "could not be found"]
        /\ PyStr.lower (str_exc e) = pre +:+ phrase +:+ post.
Proof.
  unfold missing. rewrite existsb_exists. split.
  - intros (phrase & Hin & Hc). apply contains_iff in Hc.
    destruct Hc as (pre & post & Hc). now exists phrase, pre, post.
  - intros (phrase & pre & post & Hin & Hc).
    exists phrase. split; [exact Hin|]. apply contains_iff. now exists pre, post.
Qed.

End NameFacts.

(** * Further facts: the transcription runner *)

Section RunnerFacts.

Context {RT : Runtime}.
Variable cfg : settings.

(** The loop appends the dictionary of each segment, numbered from the
    index it starts with. *)
Lemma collect_segments (yielded : list Segment) :
  forall (index : nat) (segments : list segment_dict) (collected_text : list string),
    fst (collect index yielded segments collected_text)
    = segments ++ imap (fun i => segment_entry (index + i)) yielded.
Proof.
  induction yielded as [|segment rest IH]; intros index segments collected_text.
  - cbn. now rewrite app_nil_r.
  - cbn [collect imap]. rewrite IH, <- app_assoc. cbn [app].
    rewrite Nat.add_0_r. do 2 f_equal.
    apply imap_ext. intros i x _. cbn. f_equal. lia.
Qed.

(** [run_transcription] when the model is there and the generator runs to
    its end. *)
Lemma run_transcription_returns
    (audio_path model_name : string) (w w1 : world) (h : Model)
    (yielded : list Segment) (x : Ext) :
  get_model cfg model_name w = (Return h, w1) ->
  transcribe h audio_path (WHISPER_BEAM_SIZE cfg) true (ext w1)
  = (Return (yielded, None), x) ->
  run_transcription cfg audio_path model_name w
  = (Return
       (PyStr.strip
          (PyStr.join " "
             (List.filter PyStr.truthy (List.map Spec.trimmed_text yielded))),
        imap segment_entry yielded),
     {| _MODEL_CACHE := _MODEL_CACHE w1;
        log := log w1;
        trace := trace w1
                 ++ [CallTranscribe h audio_path (WHISPER_BEAM_SIZE cfg) true];
        ext := x |}).
Proof.
  intros Hg Ht. unfold run_transcription.
  unfold bind at 1. rewrite Hg.
  unfold bind, external. rewrite Ht.
  pose proof (collect_text yielded 0 [] []) as Hc.
  pose proof (collect_segments yielded 0 [] []) as Hs.
  destruct (collect 0 yielded [] []) as [segments collected_text].
  cbn [fst snd app] in Hc, Hs. subst. reflexivity.
Qed.

(** X10: the segment list that [run_transcription] returns has one
    dictionary per yielded segment, in order.  The dictionary at position
    [i] has [id] [i], [seek] 0 and temperature 0.0, and carries the
    segment's text as the model gave it, untrimmed, with its times, tokens
    and scores.  The only call made after [get_model] is the one
    [transcribe] call, with the configured beam size and the VAD filter
    on. *)
Theorem run_transcription_segments
    (audio_path model_name : string) (w w1 : world) (h : Model)
    (yielded : list Segment) (x : Ext) :
  get_model cfg model_name w = (Return h, w1) ->
  transcribe h audio_path (WHISPER_BEAM_SIZE cfg) true (ext w1)
  = (Return (yielded, None), x) ->
  exists text segments w2,
    run_transcription cfg audio_path model_name w = (Return (text, segments), w2)
    /\ length segments = length yielded
    /\ (forall i s,
          yielded !! i = Some s ->
          segments !! i
          = Some {| sd_id := i;
                    sd_seek := 0;
                    sd_start := seg_start s;
                    sd_end := seg_end s;
                    sd_text := seg_text s;
                    sd_tokens := seg_tokens s;
                    sd_temperature := 0%float;
                    sd_avg_logprob := seg_avg_logprob s;
                    sd_compression_ratio := seg_compression_ratio s;
                    sd_no_speech_prob := seg_no_speech_prob s |})
    /\ trace w2
       = trace w1 ++ [CallTranscribe h audio_path (WHISPER_BEAM_SIZE cfg) true]
    /\ _MODEL_CACHE w2 = _MODEL_CACHE w1.
Proof.
  intros Hg Ht.
  rewrite (run_transcription_returns _ _ _ _ _ _ _ Hg Ht).
  eexists. eexists. eexists. split; [reflexivity|].
  split; [apply length_imap|]. split; [|now split].
  intros i s Hi. rewrite list_lookup_imap, Hi. reflexivity.
Qed.

(** X11: [run_transcription] passes failures on as they are.  What
    [get_model] raises is raised without a [transcribe] call; what the
    [transcribe] call raises is raised; and an exception of the generator
    after some segments is raised, the segments before it being dropped. *)
Theorem run_transcription_propagates
    (audio_path model_name : string) (w w1 : world) (e : exn) :
  (get_model cfg model_name w = (Raise e, w1) ->
   run_transcription cfg audio_path model_name w = (Raise e, w1))
  /\ (forall h x,
        get_model cfg model_name w = (Return h, w1) ->
        transcribe h audio_path (WHISPER_BEAM_SIZE cfg) true (ext w1)
        = (Raise e, x) ->
        fst (run_transcription cfg audio_path model_name w) = Raise e)
  /\ (forall h x yielded,
        get_model cfg model_name w = (Return h, w1) ->
        transcribe h audio_path (WHISPER_BEAM_SIZE cfg) true (ext w1)
        = (Return (yielded, Some e), x) ->
        fst (run_transcription cfg audio_path model_name w) = Raise e).
Proof.
  split; [|split].
  - intros Hg. unfold run_transcription, bind. now rewrite Hg.
  - intros h x Hg Ht. unfold run_transcription.
    unfold bind at 1. rewrite Hg. unfold bind, external. now rewrite Ht.
  - intros h x yielded Hg Ht. unfold run_transcription.
    unfold bind at 1. rewrite Hg. unfold bind, external. rewrite Ht.
    now destruct (collect 0 yielded [] []).
Qed.

(** ** The joined text *)

Lemma append_nonempty_r (a b : string) : b <> "" -> a +:+ b <> "".
Proof. destruct a; cbn; [auto|discriminate]. Qed.

Lemma rstrip_append (a b : string) :
  PyStr.rstrip b <> "" -> PyStr.rstrip (a +:+ b) = a +:+ PyStr.rstrip b.
Proof.
  intros Hb. induction a as [|c a IH]; [reflexivity|].
  change (PyStr.rstrip (String c (a +:+ b)) = String c (a +:+ PyStr.rstrip b)).
  cbn [PyStr.rstrip]. rewrite IH.
  pose proof (append_nonempty_r a _ Hb) as Hn.
  now destruct (a +:+ PyStr.rstrip b).
Qed.

(** A string that [strip] leaves alone and that is not empty starts with a
    character that is no whitespace, and [rstrip] leaves it alone too. *)
Lemma trimmed_shape (t : string) :
  t <> "" -> PyStr.strip t = t ->
  (exists c t', t = String c t' /\ PyStr.isspace c = false)
  /\ PyStr.rstrip t = t.
Proof.
  intros Hn Ht.
  destruct (strip_head t) as [E|(c & t' & E & Hc)]; [congruence|].
  rewrite Ht in E. subst t.
  split; [now exists c, t'|].
  unfold PyStr.strip in Ht. cbn [PyStr.lstrip] in Ht. now rewrite Hc in Ht.
Qed.

Lemma join_cons (p q : string) (rest : list string) :
  PyStr.join " " (p :: q :: rest) = p +:+ " " +:+ PyStr.join " " (q :: rest).
Proof. reflexivity. Qed.

(** Trimmed, non-empty parts joined by single spaces form a trimmed,
    non-empty string. *)
Lemma join_trimmed (parts : list string) :
  parts <> [] ->
  Forall (fun t => t <> "" /\ PyStr.strip t = t) parts ->
  PyStr.join " " parts <> ""
  /\ PyStr.strip (PyStr.join " " parts) = PyStr.join " " parts.
Proof.
  induction parts as [|p rest IH]; [congruence|].
  intros _ Hall. inversion Hall as [|? ? [Hp Hs] Hrest]; subst.
  destruct rest as [|q rest]; [now split|].
  destruct (IH ltac:(discriminate) Hrest) as [Hj Hsj].
  rewrite join_cons. set (J := PyStr.join " " (q :: rest)) in *.
  destruct (trimmed_shape p Hp Hs) as [(c & p' & -> & Hc) Hrp].
  destruct (trimmed_shape J Hj Hsj) as [_ HrJ].
  split; [discriminate|].
  unfold PyStr.strip.
  assert (Hl : PyStr.lstrip (String c p' +:+ " " +:+ J)
               = String c p' +:+ " " +:+ J).
  { change (PyStr.lstrip (String c (p' +:+ " " +:+ J))
            = String c (p' +:+ " " +:+ J)).
    cbn [PyStr.lstrip]. now rewrite Hc. }
  rewrite Hl.
  assert (HsJ : PyStr.rstrip (" " +:+ J) = " " +:+ J).
  { rewrite rstrip_append; rewrite HrJ; [reflexivity|exact Hj]. }
  rewrite rstrip_append; rewrite HsJ; [reflexivity|discriminate].
Qed.

Lemma trimmed_texts_are_trimmed (yielded : list Segment) :
  Forall (fun t => t <> "" /\ PyStr.strip t = t)
    (List.filter PyStr.truthy (List.map Spec.trimmed_text yielded)).
Proof.
  apply List.Forall_forall. intros t Ht.
  apply List.filter_In in Ht. destruct Ht as [Hin Hn].
  apply truthy_true in Hn. split; [exact Hn|].
  apply List.in_map_iff in Hin. destruct Hin as (s & <- & _).
  unfold Spec.trimmed_text. destruct (seg_text s); [apply strip_idem|reflexivity].
Qed.

(** X12: the text that [run_transcription] returns is the plain join, by
    single spaces, of the segments' trimmed texts that are not empty: the
    final [strip] finds nothing to remove.  The text is empty exactly when
    no segment has a text that is not blank. *)
Theorem run_transcription_text_is_plain_join
    (audio_path model_name : string) (w w1 : world) (h : Model)
    (yielded : list Segment) (x : Ext) :
  get_model cfg model_name w = (Return h, w1) ->
  transcribe h audio_path (WHISPER_BEAM_SIZE cfg) true (ext w1)
  = (Return (yielded, None), x) ->
  exists text segments w2,
    run_transcription cfg audio_path model_name w = (Return (text, segments), w2)
    /\ text
       = PyStr.join " "
           (List.filter PyStr.truthy
              (List.map (fun s => PyStr.strip (PyStr.opt_or (seg_text s) ""))
                 yielded))
    /\ (text = ""
        <-> Forall (fun s => PyStr.strip (PyStr.opt_or (seg_text s) "") = "")
              yielded).
Proof.
  intros Hg Ht.
  rewrite (run_transcription_returns _ _ _ _ _ _ _ Hg Ht).
  eexists. eexists. eexists. split; [reflexivity|].
  assert (Em : List.map (fun s => PyStr.strip (PyStr.opt_or (seg_text s) ""))
                 yielded
               = List.map Spec.trimmed_text yielded).
  { apply List.map_ext. intros s. apply segment_text_trimmed. }
  rewrite Em.
  pose proof (trimmed_texts_are_trimmed yielded) as Hall.
  set (parts := List.filter PyStr.truthy (List.map Spec.trimmed_text yielded))
    in *.
  assert (Hj : PyStr.strip (PyStr.join " " parts) = PyStr.join " " parts).
  { destruct parts as [|p rest] eqn:Ep; [reflexivity|].
    now apply join_trimmed. }
  split; [exact Hj|]. rewrite Hj.
  assert (Hblank : parts = []
                   <-> Forall (fun s => PyStr.strip (PyStr.opt_or (seg_text s) "")
                                         = "") yielded).
  { subst parts. clear. induction yielded as [|s rest IH]; cbn.
    - split; [constructor|reflexivity].
    - rewrite <- (segment_text_trimmed s).
      destruct (PyStr.strip (PyStr.opt_or (seg_text s) "")) as [|c t] eqn:Es;
        cbn [PyStr.truthy List.filter].
      + rewrite IH. split; [now constructor|now inversion 1].
      + split; [discriminate|]. inversion 1 as [|? ? Hs]. congruence. }
  rewrite <- Hblank. split.
  - intros Hjoin. destruct parts as [|p rest] eqn:Ep; [reflexivity|].
    destruct (join_trimmed (p :: rest) ltac:(discriminate) Hall) as [Hne _].
    contradiction.
  - now intros ->.
Qed.

(** X18: a transcription that returns has run on the cached model.  When
    [run_transcription] returns, the cache holds a handle under the
    normalised model name, and the one [transcribe] call in the trace was
    made on that handle for the given path, with the configured beam size
    and the VAD filter on. *)
Theorem run_transcription_uses_cached_model
    (audio_path model_name n : string) (w w1 : world)
    (r : string * list segment_dict) :
  fst (normalize_model_name cfg (Some model_name) w) = Return n ->
  run_transcription cfg audio_path model_name w = (Return r, w1) ->
  exists h,
    _MODEL_CACHE w1 !! n = Some h
    /\ In (CallTranscribe h audio_path (WHISPER_BEAM_SIZE cfg) true) (trace w1).
Proof.
  intros Hn Hr. apply normalized_name_is_spec in Hn. subst n.
  unfold run_transcription in Hr. unfold bind at 1 in Hr.
  destruct (get_model cfg model_name w) as [[h|e] w0] eqn:Hg;
    [|discriminate Hr].
  apply get_model_stored in Hg.
  unfold bind, external in Hr.
  destruct (transcribe h audio_path (WHISPER_BEAM_SIZE cfg) true (ext w0))
    as [[[yielded [e|]]|e] x]; try discriminate Hr;
    destruct (collect 0 yielded [] []) as [segments collected_text];
    try discriminate Hr.
  unfold ret in Hr. injection Hr as <- <-.
  exists h. split; [exact Hg|].
  cbn [trace]. apply in_or_app. right. now left.
Qed.

End RunnerFacts.

(** * Further facts: the handler *)

Section HandlerFacts.

Context {RT : Runtime}.
Variable cfg : settings.

(** X13: an upload without a file name, an upload that cannot be read and
    an empty upload are answered with 400 and the detail of their case.
    No temporary file is created, no model is loaded and nothing is
    cached: the state is as it was, but for the log record of a failed
    read. *)
Theorem create_transcription_rejects_upload (request : Request) (w : world) :
  (filename (file request) = None \/ filename (file request) = Some "" ->
   create_transcription cfg request w
   = (Raise (HTTPException 400 "Uploaded file must include a filename."), w))
  /\ (forall file_name e,
        filename (file request) = Some file_name -> file_name <> "" ->
        read (file request) = Raise e ->
        create_transcription cfg request w
        = (Raise (HTTPException 400 "Unable to read uploaded file."),
           {| _MODEL_CACHE := _MODEL_CACHE w;
              log := log w ++ [ErrReadFailed e];
              trace := trace w;
              ext := ext w |}))
  /\ (forall file_name,
        filename (file request) = Some file_name -> file_name <> "" ->
        read (file request) = Return [] ->
        create_transcription cfg request w
        = (Raise (HTTPException 400 "Uploaded file is empty."), w)).
Proof.
  unfold create_transcription, receive_upload.
  split; [|split].
  - intros [->| ->]; reflexivity.
  - intros file_name e -> Hn ->. apply truthy_true in Hn. rewrite Hn.
    reflexivity.
  - intros file_name -> Hn ->. apply truthy_true in Hn. rewrite Hn.
    reflexivity.
Qed.

(** X14: what [receive_upload] has done when it returns.  The upload has
    a non-empty file name and non-empty content; one temporary file was
    created, with the suffix of the file name or ".mp3" when it has none,
    and exactly the bytes read from the upload were written to it; these
    are the only calls made.  The cache is untouched and the last log
    record is the receipt with the file name, the size and the selected
    model. *)
Theorem receive_upload_effects (request : Request) (w wt : world)
    (file_name temp_path selected_model : string) :
  receive_upload cfg request w
  = (Return (file_name, temp_path, selected_model), wt) ->
  exists file_bytes earlier,
    filename (file request) = Some file_name
    /\ file_name <> ""
    /\ read (file request) = Return file_bytes
    /\ file_bytes <> []
    /\ PyStr.or_ (Path_suffix file_name) ".mp3" <> ""
    /\ trace wt
       = trace w
         ++ [CallNamedTemporaryFile (PyStr.or_ (Path_suffix file_name) ".mp3");
             CallWrite temp_path file_bytes]
    /\ _MODEL_CACHE wt = _MODEL_CACHE w
    /\ log wt
       = earlier ++ [InfoReceived file_name (length file_bytes) selected_model].
Proof.
  unfold receive_upload.
  destruct (filename (file request)) as [fn|]; [|discriminate].
  destruct (PyStr.truthy fn) eqn:Hfn; cbn [negb]; [|discriminate].
  unfold bind at 1, try_except.
  destruct (read (file request)) as [[|b bytes]|e]; try discriminate.
  unfold bind at 1, external.
  destruct (NamedTemporaryFile _ _) as [[tp|e] x1]; [|discriminate].
  unfold bind at 1.
  destruct (tmp_file_write _ _ _) as [[[]|e] x2]; [|discriminate].
  unfold bind at 1.
  match goal with
  | |- context [normalize_model_name cfg ?r ?w0] =>
      destruct (normalize_run cfg r w0) as (w3 & -> & (Hc & Ht & _))
  end.
  unfold bind, logger, ret. intros H. injection H as <- <- <- <-.
  exists (b :: bytes), (log w3).
  split; [reflexivity|]. split; [now apply truthy_true|].
  split; [reflexivity|]. split; [discriminate|].
  split; [apply or_nonempty; discriminate|].
  cbn [trace _MODEL_CACHE log] in *. rewrite Ht, Hc. cbn.
  rewrite <- app_assoc. now repeat split.
Qed.

(** X15: the successful exchange.  After a received upload, when
    [run_transcription] returns a text and segments, the handler returns
    the payload with the object tag "transcription", the selected model,
    that text and those segments, the identifier "transcription-" followed
    by the string that [uuid4().hex] answers, and the time that
    [time.time()] answers.  The temporary file is unlinked right after the
    transcription; the identifier is taken after the unlink and the time
    after the identifier; whether the unlink succeeds does not matter. *)
Theorem create_transcription_success (request : Request) (w wt w1 : world)
    (file_name temp_path selected_model text : string)
    (segments : list segment_dict) :
  receive_upload cfg request w
  = (Return (file_name, temp_path, selected_model), wt) ->
  run_transcription cfg temp_path selected_model wt
  = (Return (text, segments), w1) ->
  let after_unlink := snd (unlink temp_path (ext w1)) in
  let hex := fst (uuid4_hex after_unlink) in
  let after_uuid := snd (uuid4_hex after_unlink) in
  let created := fst (time_time after_uuid) in
  exists w',
    create_transcription cfg request w
    = (Return {| rp_id := "transcription-" +:+ hex;
                 rp_object := "transcription";
                 rp_created := created;
                 rp_model := selected_model;
                 rp_text := text;
                 rp_segments := segments |}, w')
    /\ trace w' = trace w1 ++ [CallUnlink temp_path; CallUuid4; CallTime]
    /\ ext w' = snd (time_time after_uuid)
    /\ _MODEL_CACHE w' = _MODEL_CACHE w1
    /\ In (InfoCompleted file_name selected_model (PyStr.take 200 text)) (log w').
Proof.
  intros Hu Hr. cbv zeta. unfold create_transcription.
  unfold bind at 1. rewrite Hu.
  unfold bind at 1, try_finally, transcribe_or_fail, try_except.
  unfold bind at 1. rewrite Hr.
  unfold bind at 1, logger, ret. cbn [fst snd].
  assert (Ep : PyStr.take 200 (PyStr.or_ text "") = PyStr.take 200 text).
  { unfold PyStr.or_. now destruct text. }
  rewrite Ep.
  unfold remove_temp_file, try_except, external. cbn [ext].
  destruct (unlink temp_path (ext w1)) as [[msg|] x1]; cbn [isinstance_OSError];
    unfold logger, bind, external, ret; cbn [ext snd];
    destruct (uuid4_hex x1) as [hex x2]; cbn [ext fst snd];
    destruct (time_time x2) as [t x3]; cbn [fst snd];
    eexists; (split; [reflexivity|]);
    cbn [trace log _MODEL_CACHE ext];
    rewrite <- !app_assoc; (split; [reflexivity|]); (split; [reflexivity|]);
    (split; [reflexivity|]);
    rewrite !in_app_iff; cbn; tauto.
Qed.

(** X16: a failed transcription, on the server's side.  After a received
    upload, when [run_transcription] raises, the exception itself is
    logged, as a missing model or as a failed transcription; the temporary
    file is unlinked; no identifier or time is taken; and the cache is as
    the transcription left it. *)
Theorem create_transcription_failure_effects (request : Request) (w wt w1 : world)
    (file_name temp_path selected_model : string) (e : exn) :
  receive_upload cfg request w
  = (Return (file_name, temp_path, selected_model), wt) ->
  run_transcription cfg temp_path selected_model wt = (Raise e, w1) ->
  let w' := snd (create_transcription cfg request w) in
  trace w' = trace w1 ++ [CallUnlink temp_path]
  /\ _MODEL_CACHE w' = _MODEL_CACHE w1
  /\ In (if isinstance_ModelNotAvailableError e
         then ErrModelNotAvailable e
         else ErrTranscriptionFailed e) (log w').
Proof.
  intros Hu Hr. cbv zeta.
  destruct (create_transcription cfg request w) as [o w'] eqn:Ec. cbn [snd].
  unfold create_transcription in Ec.
  unfold bind at 1 in Ec. rewrite Hu in Ec.
  unfold bind at 1, try_finally, transcribe_or_fail, try_except in Ec.
  unfold bind at 1 in Ec. rewrite Hr in Ec.
  unfold remove_temp_file, try_except, external in Ec.
  destruct (isinstance_ModelNotAvailableError e);
    unfold bind, logger, raise in Ec; cbn [ext] in Ec;
    destruct (unlink temp_path (ext w1)) as [[msg|] x1];
    cbn [isinstance_OSError] in Ec; injection Ec as <- <-;
    cbn [trace log _MODEL_CACHE];
    (split; [reflexivity|]); (split; [reflexivity|]);
    rewrite ?in_app_iff; cbn; tauto.
Qed.

(** X17: when the temporary file cannot be created, the exception of
    [NamedTemporaryFile] leaves the handler as it is: it is not turned
    into an HTTP error, and nothing else is called. *)
Theorem create_transcription_no_temp_file (request : Request) (w : world)
    (file_name : string) (file_bytes : list Byte.byte) (e : exn) (x : Ext) :
  filename (file request) = Some file_name -> file_name <> "" ->
  read (file request) = Return file_bytes -> file_bytes <> [] ->
  NamedTemporaryFile (PyStr.or_ (Path_suffix file_name) ".mp3") (ext w)
  = (Raise e, x) ->
  create_transcription cfg request w
  = (Raise e,
     {| _MODEL_CACHE := _MODEL_CACHE w;
        log := log w;
        trace := trace w
                 ++ [CallNamedTemporaryFile
                       (PyStr.or_ (Path_suffix file_name) ".mp3")];
        ext := x |}).
Proof.
  intros Hf Hn Hr Hb He. apply truthy_true in Hn.
  unfold create_transcription, receive_upload. rewrite Hf, Hn. cbn [negb].
  unfold bind at 1. unfold bind at 1, try_except. rewrite Hr.
  destruct file_bytes as [|b bytes]; [congruence|].
  unfold bind, external. now rewrite He.
Qed.

(** X19: which field selects the model.  A form field that is not empty
    decides, whatever the query string says, even when it is blank (it is
    then normalised to the default); the query parameter is used only
    when the form field is absent or empty. *)
Theorem selected_model_precedence (request : Request) (w wt : world)
    (file_name temp_path selected_model : string) :
  receive_upload cfg request w
  = (Return (file_name, temp_path, selected_model), wt) ->
  (forall s w',
      model request = Some s -> s <> "" ->
      fst (normalize_model_name cfg (Some s) w') = Return selected_model)
  /\ (forall w',
        model request = None \/ model request = Some "" ->
        fst (normalize_model_name cfg (query_params_model request) w')
        = Return selected_model).
Proof.
  intros Hu. apply receive_upload_selected in Hu. subst selected_model.
  split.
  - intros s w' -> Hs. rewrite normalize_value. unfold form_or_query.
    apply truthy_true in Hs. now rewrite Hs.
  - intros w' [-> | ->]; now rewrite normalize_value.
Qed.

End HandlerFacts.

(** * The further facts on the scripted runtime *)

Section MoreScenarios.

Import Scripted.

(** "float16" configured and a model file that cannot be opened: the
    [RuntimeError] raised for "auto" is the constructor's own. *)
Lemma get_model_raises_only_witness :
  let s := a_script load_file_missing in
  let cfg := a_config "base" "float16" in
  let e := PyExc RuntimeError "Unable to open file 'model.bin': file not found" None in
  fst (get_model cfg "base" (start s)) = Raise e
  /\ ((exists c x x',
          In c (_compute_type_candidates cfg)
          /\ WhisperModel (Runtime := runtime s) "base" "auto" c x = (Raise e, x')
          /\ (isinstance_ValueError e = false
              \/ (c = "auto" /\ isinstance_ValueError e = true
                  /\ missing e = false)))
      \/ (exists e0 x x' msg,
            e = PyExc ModelNotAvailableError msg (Some e0)
            /\ WhisperModel (Runtime := runtime s) "base" "auto" "auto" x
               = (Raise e0, x')
            /\ isinstance_ValueError e0 = true
            /\ missing e0 = true)).
Proof.
  cbv zeta.
  assert (He : fst (get_model (a_config "base" "float16") "base"
                      (start (a_script load_file_missing)))
               = Raise (PyExc RuntimeError
                          "Unable to open file 'model.bin': file not found" None))
    by (vm_compute; reflexivity).
  split; [exact He|].
  exact (get_model_raises_only
           (RT := runtime (a_script load_file_missing))
           (a_config "base" "float16") "base" "base"
           (start (a_script load_file_missing)) _ eq_refl He).
Defined.

(** A first load of "base": the handle is the one the constructor built
    for "float16". *)
Lemma get_model_returns_only_witness :
  let s := a_script load_ok in
  let cfg := a_config "large-v3-turbo" "float16" in
  let h := ("base", "auto", "float16") in
  let w1 := snd (get_model cfg "base" (start s)) in
  _MODEL_CACHE (start s) !! "base" = None
  /\ (exists c x x',
        In c (_compute_type_candidates cfg)
        /\ WhisperModel (Runtime := runtime s) "base" "auto" c x = (Return h, x'))
  /\ _MODEL_CACHE w1 = <["base" := h]> (_MODEL_CACHE (start s)).
Proof.
  cbv zeta.
  destruct (get_model_returns_only
              (RT := runtime (a_script load_ok))
              (a_config "large-v3-turbo" "float16") "base" "base"
              (start (a_script load_ok))
              (snd (get_model (a_config "large-v3-turbo" "float16") "base"
                      (start (a_script load_ok))))
              ("base", "auto", "float16") eq_refl
              ltac:(vm_compute; reflexivity))
    as [[Hhit _]|H].
  - vm_compute in Hhit. discriminate Hhit.
  - exact H.
Defined.

(** A load that fails leaves the empty cache empty. *)
Lemma get_model_failure_leaves_cache_witness :
  let s := a_script load_file_missing in
  let cfg := a_config "base" "float16" in
  _MODEL_CACHE (snd (get_model cfg "base" (start s))) = _MODEL_CACHE (start s).
Proof.
  cbv zeta.
  apply (get_model_failure_leaves_cache
           (RT := runtime (a_script load_file_missing))
           (a_config "base" "float16") "base"
           (start (a_script load_file_missing))
           (PyExc RuntimeError "Unable to open file 'model.bin': file not found"
              None)).
  vm_compute. reflexivity.
Defined.

(** The fallback of the test suite: "float16" is rejected, "int8_float32"
    is built, "int8" and "auto" are not tried. *)
Lemma get_model_falls_back_witness :
  let s := a_script load_no_float16 in
  let cfg := a_config "large-v3-turbo" "float16" in
  let m := ("base", "auto", "int8_float32") in
  _compute_type_candidates cfg = ["float16"] ++ "int8_float32" :: ["int8"; "auto"]
  /\ exists w',
       get_model cfg "base" (start s) = (Return m, w')
       /\ _MODEL_CACHE w' = <["base" := m]> (_MODEL_CACHE (start s))
       /\ trace w'
          = [CallWhisperModel "base" "auto" "float16";
             CallWhisperModel "base" "auto" "int8_float32"]
       /\ log w'
          = [InfoLoading "base" "auto" "float16";
             WarnLoadFailed "base" "float16"
               (PyExc ValueError "float16 unsupported" None);
             InfoLoading "base" "auto" "int8_float32"].
Proof.
  cbv zeta. split; [reflexivity|].
  apply (get_model_falls_back
           (RT := runtime (a_script load_no_float16))
           (a_config "large-v3-turbo" "float16") "base" "base"
           (start (a_script load_no_float16))
           (fun _ => PyExc ValueError "float16 unsupported" None)
           ["float16"] "int8_float32" ["int8"; "auto"]
           ("base", "auto", "int8_float32")).
  - reflexivity.
  - reflexivity.
  - reflexivity.
  - intros c Hc x. exists x. split; [|reflexivity].
    cbn in Hc. destruct Hc as [<-|[]]. reflexivity.
  - intros x. exists x. reflexivity.
Defined.

(** A name in another case than the table's, and a name that is no
    alias. *)
Lemma normalize_given_name_witness :
  let cfg := a_config "large-v3-turbo" "auto" in
  let w := start (a_script load_ok) in
  PyStr.strip " Base " <> ""
  /\ normalize_model_name cfg (Some " Base ") w = (Return "Base", w)
  /\ fst (normalize_model_name cfg (Some " Large-V3-Turbo ") w) = Return "large-v3"
  /\ log (snd (normalize_model_name cfg (Some " Large-V3-Turbo ") w))
     = [InfoAliasApplied "Large-V3-Turbo" "large-v3"].
Proof.
  cbv zeta.
  assert (H1 : PyStr.strip " Base " <> "") by discriminate.
  assert (H2 : PyStr.strip " Large-V3-Turbo " <> "") by discriminate.
  split; [exact H1|]. split.
  - exact (normalize_given_name
             (RT := runtime (a_script load_ok))
             (a_config "large-v3-turbo" "auto") " Base "
             (start (a_script load_ok)) H1).
  - rewrite (normalize_given_name
               (RT := runtime (a_script load_ok))
               (a_config "large-v3-turbo" "auto") " Large-V3-Turbo "
               (start (a_script load_ok)) H2).
    split; reflexivity.
Defined.

(** The default " base": an absent request gives " base", which is then
    normalised to the fixed point "base". *)
Lemma normalize_twice_is_fixed_witness :
  let cfg := a_config " base" "auto" in
  let w := start (a_script load_ok) in
  fst (normalize_model_name cfg None w) = Return " base"
  /\ fst (normalize_model_name cfg (Some " base") w) = Return "base"
  /\ normalize_fixed (RT := runtime (a_script load_ok)) cfg "base".
Proof.
  cbv zeta. split; [reflexivity|]. split; [reflexivity|].
  exact (normalize_twice_is_fixed
           (RT := runtime (a_script load_ok))
           (a_config " base" "auto") None
           (start (a_script load_ok)) (start (a_script load_ok))
           " base" "base" eq_refl eq_refl).
Defined.

(** Four segments: their dictionaries are numbered 0 to 3 and keep the
    text as it came, and the text is the join of the two that have one. *)
Lemma run_transcription_segments_witness :
  let s := a_script load_ok in
  let cfg := a_config "base" "auto" in
  exists text segments w2,
    run_transcription cfg "/tmp/tmpk3x9.mp3" "base" (start s)
    = (Return (text, segments), w2)
    /\ length segments = 4
    /\ sd_id <$> segments = [0; 1; 2; 3]
    /\ sd_text <$> segments = [Some " Hello "; None; Some "   "; Some "world."].
Proof.
  cbv zeta.
  destruct (run_transcription_segments
              (RT := runtime (a_script load_ok))
              (a_config "base" "auto") "/tmp/tmpk3x9.mp3" "base"
              (start (a_script load_ok))
              (snd (get_model (a_config "base" "auto") "base"
                      (start (a_script load_ok))))
              ("base", "auto", "auto")
              [a_segment (Some " Hello "); a_segment None;
               a_segment (Some "   "); a_segment (Some "world.")] tt
              ltac:(vm_compute; reflexivity) eq_refl)
    as (text & segments & w2 & E & Hlen & Hseg & _).
  exists text, segments, w2. split; [exact E|]. split; [exact Hlen|].
  pose proof (Hseg 0 _ eq_refl) as H0. pose proof (Hseg 1 _ eq_refl) as H1.
  pose proof (Hseg 2 _ eq_refl) as H2. pose proof (Hseg 3 _ eq_refl) as H3.
  destruct segments as [|d0 [|d1 [|d2 [|d3 [|d4 rest]]]]]; try discriminate Hlen.
  cbn in H0, H1, H2, H3.
  injection H0 as ->. injection H1 as ->. injection H2 as ->. injection H3 as ->.
  split; reflexivity.
Defined.

(** A generator that fails after one segment. *)
Lemma run_transcription_propagates_witness :
  let e := PyExc RuntimeError "decoder crashed" None in
  let s := on_broken_generator (a_script load_ok) e in
  let cfg := a_config "base" "auto" in
  fst (run_transcription cfg "/tmp/tmpk3x9.mp3" "base" (start s)) = Raise e.
Proof.
  cbv zeta.
  refine (proj2 (proj2 (run_transcription_propagates
            (RT := runtime (on_broken_generator (a_script load_ok)
                              (PyExc RuntimeError "decoder crashed" None)))
            (a_config "base" "auto") "/tmp/tmpk3x9.mp3" "base"
            (start _)
            (snd (get_model (a_config "base" "auto") "base" (start _)))
            (PyExc RuntimeError "decoder crashed" None)))
          ("base", "auto", "auto") tt [a_segment (Some "Hello")] _ _).
  - vm_compute. reflexivity.
  - reflexivity.
Defined.

Lemma run_transcription_text_is_plain_join_witness :
  let s := a_script load_ok in
  let cfg := a_config "base" "auto" in
  exists text segments w2,
    run_transcription cfg "/tmp/tmpk3x9.mp3" "base" (start s)
    = (Return (text, segments), w2)
    /\ text = "Hello world.".
Proof.
  cbv zeta.
  destruct (run_transcription_text_is_plain_join
              (RT := runtime (a_script load_ok))
              (a_config "base" "auto") "/tmp/tmpk3x9.mp3" "base"
              (start (a_script load_ok))
              (snd (get_model (a_config "base" "auto") "base"
                      (start (a_script load_ok))))
              ("base", "auto", "auto")
              [a_segment (Some " Hello "); a_segment None;
               a_segment (Some "   "); a_segment (Some "world.")] tt
              ltac:(vm_compute; reflexivity) eq_refl)
    as (text & segments & w2 & E & Ht & _).
  exists text, segments, w2. split; [exact E|]. rewrite Ht.
  vm_compute. reflexivity.
Defined.

(** The three uploads that are turned down. *)
Lemma create_transcription_rejects_upload_witness :
  let cfg := a_config "base" "auto" in
  let w := start (a_script load_ok) in
  create_transcription cfg a_request_without_filename w
  = (Raise (HTTPException 400 "Uploaded file must include a filename."), w)
  /\ fst (create_transcription cfg an_unreadable_request w)
     = Raise (HTTPException 400 "Unable to read uploaded file.")
  /\ create_transcription cfg an_empty_request w
     = (Raise (HTTPException 400 "Uploaded file is empty."), w).
Proof.
  cbv zeta. split; [|split].
  - apply (proj1 (create_transcription_rejects_upload
                    (RT := runtime (a_script load_ok))
                    (a_config "base" "auto") a_request_without_filename
                    (start (a_script load_ok)))).
    right. reflexivity.
  - rewrite (proj1 (proj2 (create_transcription_rejects_upload
                             (RT := runtime (a_script load_ok))
                             (a_config "base" "auto") an_unreadable_request
                             (start (a_script load_ok))))
               "speech.wav" (PyExc RuntimeError "client disconnected" None)
               eq_refl ltac:(discriminate) eq_refl).
    reflexivity.
  - apply (proj2 (proj2 (create_transcription_rejects_upload
                           (RT := runtime (a_script load_ok))
                           (a_config "base" "auto") an_empty_request
                           (start (a_script load_ok))))
             "speech.wav" eq_refl ltac:(discriminate) eq_refl).
Defined.

Lemma receive_upload_effects_witness :
  let cfg := a_config "large-v3-turbo" "auto" in
  let s := a_script load_ok in
  let wt := snd (receive_upload cfg a_request (start s)) in
  trace wt
  = [CallNamedTemporaryFile ".mp3";
     CallWrite "/tmp/tmpk3x9.mp3" [Byte.x49; Byte.x44; Byte.x33]]
  /\ exists earlier, log wt = earlier ++ [InfoReceived "speech.mp3" 3 "base"].
Proof.
  cbv zeta.
  destruct (receive_upload_effects
              (RT := runtime (a_script load_ok))
              (a_config "large-v3-turbo" "auto") a_request
              (start (a_script load_ok))
              (snd (receive_upload (a_config "large-v3-turbo" "auto") a_request
                      (start (a_script load_ok))))
              "speech.mp3" "/tmp/tmpk3x9.mp3" "base"
              ltac:(vm_compute; reflexivity))
    as (file_bytes & earlier & _ & _ & Hr & _ & _ & Ht & _ & Hl).
  cbn in Hr. injection Hr as <-.
  split; [exact Ht|]. exists earlier. exact Hl.
Defined.

(** A transcription that succeeds while the temporary file cannot be
    removed: the payload is the same, with the identifier and the time
    that the scripted collaborators answer. *)
Lemma create_transcription_success_witness :
  let cfg := a_config "large-v3-turbo" "auto" in
  let s := on_unlink_failure (a_script load_ok) in
  exists w',
    create_transcription cfg a_request (start s)
    = (Return {| rp_id := "transcription-0123456789abcdef0123456789abcdef";
                 rp_object := "transcription";
                 rp_created := 1700000000;
                 rp_model := "base";
                 rp_text := "Hello world.";
                 rp_segments :=
                   imap segment_entry
                     [a_segment (Some " Hello "); a_segment None;
                      a_segment (Some "   "); a_segment (Some "world.")] |}, w')
    /\ In (WarnUnlinkFailed "/tmp/tmpk3x9.mp3") (log w').
Proof.
  cbv zeta.
  destruct (create_transcription_success
              (RT := runtime (on_unlink_failure (a_script load_ok)))
              (a_config "large-v3-turbo" "auto") a_request
              (start (on_unlink_failure (a_script load_ok)))
              (snd (receive_upload (a_config "large-v3-turbo" "auto") a_request
                      (start (on_unlink_failure (a_script load_ok)))))
              (snd (run_transcription (a_config "large-v3-turbo" "auto")
                      "/tmp/tmpk3x9.mp3" "base"
                      (snd (receive_upload (a_config "large-v3-turbo" "auto")
                              a_request
                              (start (on_unlink_failure (a_script load_ok)))))))
              "speech.mp3" "/tmp/tmpk3x9.mp3" "base" "Hello world."
              (imap segment_entry
                 [a_segment (Some " Hello "); a_segment None;
                  a_segment (Some "   "); a_segment (Some "world.")])
              ltac:(vm_compute; reflexivity) ltac:(vm_compute; reflexivity))
    as (w' & E & _).
  exists w'. split; [exact E|].
  replace w' with (snd (create_transcription (a_config "large-v3-turbo" "auto")
                          a_request
                          (start (on_unlink_failure (a_script load_ok)))))
    by (now rewrite E).
  vm_compute. tauto.
Defined.

(** A model that could not be found: the error is logged as a missing
    model and the temporary file is unlinked. *)
Lemma create_transcription_failure_effects_witness :
  let s := a_script (load_rejects "model could not be found") in
  let cfg := a_config "large-v3-turbo" "auto" in
  let e := PyExc ModelNotAvailableError
             "Unable to load Whisper model 'base' with any compute type. Model files are not available locally."
             (Some (PyExc ValueError "model could not be found" None)) in
  let w' := snd (create_transcription cfg a_request (start s)) in
  In (CallUnlink "/tmp/tmpk3x9.mp3") (trace w')
  /\ In (ErrModelNotAvailable e) (log w').
Proof.
  cbv zeta.
  destruct (create_transcription_failure_effects
              (RT := runtime (a_script (load_rejects "model could not be found")))
              (a_config "large-v3-turbo" "auto") a_request
              (start (a_script (load_rejects "model could not be found")))
              (snd (receive_upload (a_config "large-v3-turbo" "auto") a_request
                      (start (a_script (load_rejects "model could not be found")))))
              (snd (run_transcription (a_config "large-v3-turbo" "auto")
                      "/tmp/tmpk3x9.mp3" "base"
                      (snd (receive_upload (a_config "large-v3-turbo" "auto")
                              a_request
                              (start (a_script
                                        (load_rejects "model could not be found")))))))
              "speech.mp3" "/tmp/tmpk3x9.mp3" "base"
              (PyExc ModelNotAvailableError
                 "Unable to load Whisper model 'base' with any compute type. Model files are not available locally."
                 (Some (PyExc ValueError "model could not be found" None)))
              ltac:(vm_compute; reflexivity) ltac:(vm_compute; reflexivity))
    as (Ht & _ & Hl).
  split; [|exact Hl].
  rewrite Ht. apply in_or_app. right. now left.
Defined.

(** No temporary directory: the [FileNotFoundError] is what the handler
    raises. *)
Lemma create_transcription_no_temp_file_witness :
  let s := on_no_tempdir (a_script load_ok) in
  let cfg := a_config "large-v3-turbo" "auto" in
  fst (create_transcription cfg a_request (start s))
  = Raise (PyExc FileNotFoundError
             "[Errno 2] No usable temporary directory found" None)
  /\ trace (snd (create_transcription cfg a_request (start s)))
     = [CallNamedTemporaryFile ".mp3"].
Proof.
  cbv zeta.
  rewrite (create_transcription_no_temp_file
             (RT := runtime (on_no_tempdir (a_script load_ok)))
             (a_config "large-v3-turbo" "auto") a_request
             (start (on_no_tempdir (a_script load_ok)))
             "speech.mp3" [Byte.x49; Byte.x44; Byte.x33]
             (PyExc FileNotFoundError
                "[Errno 2] No usable temporary directory found" None) tt
             eq_refl ltac:(discriminate) eq_refl ltac:(discriminate) eq_refl).
  split; reflexivity.
Defined.

(** After the transcription of the scripted request, "base" is cached and
    the transcription ran on its handle. *)
Lemma run_transcription_uses_cached_model_witness :
  let s := a_script load_ok in
  let cfg := a_config "base" "auto" in
  let w1 := snd (run_transcription cfg "/tmp/tmpk3x9.mp3" " base " (start s)) in
  exists h,
    _MODEL_CACHE w1 !! "base" = Some h
    /\ In (CallTranscribe h "/tmp/tmpk3x9.mp3" 5 true) (trace w1).
Proof.
  cbv zeta.
  apply (run_transcription_uses_cached_model
           (RT := runtime (a_script load_ok))
           (a_config "base" "auto") "/tmp/tmpk3x9.mp3" " base " "base"
           (start (a_script load_ok))
           (snd (run_transcription (a_config "base" "auto") "/tmp/tmpk3x9.mp3"
                   " base " (start (a_script load_ok))))
           ("Hello world.",
            imap segment_entry
              [a_segment (Some " Hello "); a_segment None;
               a_segment (Some "   "); a_segment (Some "world.")])).
  - reflexivity.
  - vm_compute. reflexivity.
Defined.

(** The form field "base" of the scripted request decides. *)
Lemma selected_model_precedence_witness :
  let cfg := a_config "large-v3-turbo" "auto" in
  model a_request = Some "base"
  /\ fst (normalize_model_name cfg (Some "base") (start (a_script load_ok)))
     = Return "base".
Proof.
  cbv zeta. split; [reflexivity|].
  refine (proj1 (selected_model_precedence
                   (RT := runtime (a_script load_ok))
                   (a_config "large-v3-turbo" "auto") a_request
                   (start (a_script load_ok))
                   (snd (receive_upload (a_config "large-v3-turbo" "auto")
                           a_request (start (a_script load_ok))))
                   "speech.mp3" "/tmp/tmpk3x9.mp3" "base" _)
            "base" (start (a_script load_ok)) eq_refl _).
  - vm_compute. reflexivity.
  - discriminate.
Defined.

End MoreScenarios.
